(** * Graceful stop of a runner pod: a shallow embedding of
      [controllers/runner_graceful_stop.go] and the properties of its
      unregistration decision.

    The Go code talks to three collaborators: the wall clock
    ([time.Now]), the Kubernetes API ([client.Client.Patch]) and the GitHub
    Actions API ([github.Client.ListRunners] / [RemoveRunner]).  Each of
    them is modelled as an oracle that answers from the history of the
    run so far; every call is recorded, with its answer, in that history.
    A dereference of a nil [*corev1.Pod] is a Go run-time panic and is
    modelled as the outcome [Panic]. *)

From Stdlib Require Import ZArith Lia List Ascii String DecimalString DecimalPos.
From stdpp Require Import gmap strings list.

Local Open Scope string_scope.
Local Open Scope Z_scope.

(** ** Time *)

(** [time.Time] instants are counted in nanoseconds from a fixed epoch;
    [time.Duration] is an [int64] number of nanoseconds. *)
Definition Time := Z.
Definition Duration := Z.

Definition minDuration : Duration := - 2 ^ 63.
Definition maxDuration : Duration := 2 ^ 63 - 1.
Definition Second : Duration := 1000000000.

(** [Time.Add]: an instant read from an RFC3339 string lies in the years
    0..9999 and a [Duration] spans at most 292 years, so the sum never
    leaves the range of [time.Time]. *)
Definition time_Add (t : Time) (d : Duration) : Time := t + d.

(** [Time.Sub] saturates at the ends of the [int64] range. *)
Definition time_Sub (t u : Time) : Duration :=
  let d := t - u in
  if d <? minDuration then minDuration
  else if maxDuration <? d then maxDuration
  else d.

(** ** Errors *)

Inductive NumErrKind := ErrSyntax | ErrRange.

(** The error values the code can meet.  [wrapError] is
    [fmt.Errorf("...: %w", err)]; [errors.Is] and [errors.As] look through
    it. *)
Inductive error :=
| RateLimitError (Message : string)
| ErrorResponse (StatusCode : Z) (Message : string)
| NumError (Func Num : string) (Err : NumErrKind)
| ParseError (Value : string)
| errorString (s : string)
| wrapError (msg : string) (err : error).

(** Some error of the chain is a [*gogithub.RateLimitError]. *)
Fixpoint hasRateLimitError (err : error) : bool :=
  match err with
  | RateLimitError _ => true
  | wrapError _ e => hasRateLimitError e
  | _ => false
  end.

(** [errors.Is(err, &gogithub.RateLimitError{})] as Go evaluates it.  The
    target is a pointer to a value built on the spot, so no error of the
    chain is identical to it; what is left is the [Is] method of
    [*gogithub.RateLimitError], which compares the fields of the error
    with those of the target, and the target's are empty.  Of these
    fields the model has the message. *)
Fixpoint equalsEmptyRateLimitError (err : error) : bool :=
  match err with
  | RateLimitError msg => String.eqb msg ""
  | wrapError _ e => equalsEmptyRateLimitError e
  | _ => false
  end.

Definition equalsEmptyRateLimitError_sound (err : error) :
  equalsEmptyRateLimitError err = true -> hasRateLimitError err = true.
Proof. induction err; simpl; intros E; try discriminate; auto. Qed.

(** [errors.As(err, &errRes)] with [errRes : *gogithub.ErrorResponse]: the
    first structured API error of the chain; the value is its
    [Response.StatusCode]. *)
Fixpoint errors_As_ErrorResponse (err : error) : option Z :=
  match err with
  | ErrorResponse code _ => Some code
  | wrapError _ e => errors_As_ErrorResponse e
  | _ => None
  end.

(** ** Pods, runners, results *)

Record ContainerStatus := {
  csName : string;
  csTerminated : option Z  (* exit code of a terminated container *)
}.

Record PodStatus := {
  Phase : string;
  ContainerStatuses : list ContainerStatus
}.

Record ObjectMeta := {
  Name : string;
  Annotations : option (gmap string string)  (* [None] is the nil map *)
}.

Record Pod := {
  Meta : ObjectMeta;
  Status : PodStatus
}.

(** [gogithub.Runner]: both fields are pointers in Go. *)
Record Runner := {
  ID : option Z;
  RunnerName : option string
}.

Definition Runner_GetName (r : Runner) : string :=
  match RunnerName r with Some n => n | None => "" end.

(** [ctrl.Result] *)
Record Result := {
  Requeue : bool;
  RequeueAfter : Duration
}.

Definition emptyResult : Result := {| Requeue := false; RequeueAfter := 0 |}.
Definition requeueAfter (d : Duration) : Result :=
  {| Requeue := false; RequeueAfter := d |}.

(** ** The history of a run *)

(** One entry per call whose answer the code depends on, newest first. *)
Inductive Event :=
| EvNow (t : Time)
| EvPatch (updated base : Pod) (r : option error)
| EvListRunners (enterprise org repo : string) (r : list Runner + error)
| EvRemoveRunner (enterprise org repo : string) (id : Z) (r : option error)
| EvParseInt (s : string) (r : Z + error)
| EvTimeParse (s : string) (r : Time + error).

Definition History := list Event.

Definition Clock := History -> Time.

(** [github.Client] *)
Record GitHubClient := {
  gh_ListRunners : History -> string -> string -> string -> list Runner + error;
  gh_RemoveRunner : History -> string -> string -> string -> Z -> option error
}.

(** [client.Client]: only [Patch] is used.  Its answer is success or an
    error; the object handed back to the caller is the copy that was
    sent. *)
Record K8sClient := {
  k8s_Patch : History -> Pod -> Pod -> option error
}.

(** ** The monad of the embedding: clock reader, history state, panic *)

Inductive Outcome (A : Type) :=
| Ret (a : A)
| Panic (msg : string).
Arguments Ret {A} a.
Arguments Panic {A} msg.

Definition M (A : Type) := Clock -> History -> Outcome A * History.

Definition ret {A} (a : A) : M A := fun _ h => (Ret a, h).

Definition bind {A B} (m : M A) (k : A -> M B) : M B :=
  fun clk h =>
    match m clk h with
    | (Ret a, h') => k a clk h'
    | (Panic msg, h') => (Panic msg, h')
    end.

Definition lift {A} (o : Outcome A) : M A := fun _ h => (o, h).

Notation "x <- c1 ;; c2" := (bind c1 (fun x => c2))
  (at level 100, c1 at next level, c2 at level 200, right associativity).

Definition nilPointerDereference : string :=
  "invalid memory address or nil pointer dereference".

(** [time.Now()] *)
Definition time_Now : M Time :=
  fun clk h => (Ret (clk h), EvNow (clk h) :: h).

(** [time.Until(t)] is [t.Sub(time.Now())]. *)
Definition time_Until (t : Time) : M Duration :=
  now <- time_Now ;; ret (time_Sub t now).

(** [c.Patch(ctx, updated, client.MergeFrom(pod))] *)
Definition Patch (c : K8sClient) (updated base : Pod) : M (option error) :=
  fun _ h => let r := k8s_Patch c h updated base in (Ret r, EvPatch updated base r :: h).

(** [client.ListRunners(ctx, enterprise, org, repo)] *)
Definition ListRunners (client : GitHubClient) (enterprise org repo : string)
  : M (list Runner + error) :=
  fun _ h => let r := gh_ListRunners client h enterprise org repo in
             (Ret r, EvListRunners enterprise org repo r :: h).

(** [client.RemoveRunner(ctx, enterprise, org, repo, id)] *)
Definition RemoveRunner (client : GitHubClient) (enterprise org repo : string) (id : Z)
  : M (option error) :=
  fun _ h => let r := gh_RemoveRunner client h enterprise org repo id in
             (Ret r, EvRemoveRunner enterprise org repo id r :: h).

(** ** [strconv.ParseInt(s, 10, 64)] *)

Definition maxUint64 : Z := 2 ^ 64 - 1.

Definition digitOf (c : ascii) : option Z :=
  let n := Z.of_nat (nat_of_ascii c) in
  if (48 <=? n) && (n <=? 57) then Some (n - 48) else None.

(** The digit loop of [ParseUint] in base 10: a byte that is no decimal
    digit is a syntax error, a value above [maxUint64] a range error,
    whichever comes first. *)
Fixpoint parseUintLoop (cs : list ascii) (n : Z) : Z + NumErrKind :=
  match cs with
  | [] => inl n
  | c :: cs' =>
      match digitOf c with
      | None => inr ErrSyntax
      | Some d =>
          if maxUint64 / 10 + 1 <=? n then inr ErrRange
          else
            let n1 := n * 10 + d in
            if maxUint64 <? n1 then inr ErrRange else parseUintLoop cs' n1
      end
  end.

Definition strconv_ParseUint (cs : list ascii) : Z + NumErrKind :=
  match cs with
  | [] => inr ErrSyntax
  | _ => parseUintLoop cs 0
  end.

Definition strconv_ParseInt (s : string) : Z + error :=
  match list_ascii_of_string s with
  | [] => inr (NumError "ParseInt" s ErrSyntax)
  | c :: rest =>
      let neg := Ascii.eqb c "-"%char in
      let body := if Ascii.eqb c "+"%char || neg then rest else c :: rest in
      match strconv_ParseUint body with
      | inr ErrSyntax => inr (NumError "ParseInt" s ErrSyntax)
      | r =>
          let un := match r with inl n => n | inr _ => maxUint64 end in
          let cutoff := 2 ^ 63 in
          if negb neg && (cutoff <=? un) then inr (NumError "ParseInt" s ErrRange)
          else if neg && (cutoff <? un) then inr (NumError "ParseInt" s ErrRange)
          else inl (if neg then - un else un)
      end
  end.

(** [fmt.Sprintf("%d", id)] *)
Definition fmt_Sprintf_d (id : Z) : string := NilZero.string_of_int (Z.to_int id).

(** ** What the file uses and the repository declares elsewhere *)

(** The annotation keys, the rate-limit backoff and the two pod-status
    helpers are declared in other files of the package; [time.Parse] and
    [Time.Format] with the layout [time.RFC3339] belong to the Go
    library.  They are parameters of the development.

    So is the test [errors.Is(err, &gogithub.RateLimitError{})]: which
    errors it accepts is decided by the equality that the library gives
    its error type.  Whatever that equality is, the test accepts only an
    error whose chain holds a rate-limit error;
    [equalsEmptyRateLimitError] is the test with the equality of
    go-github. *)
Class Externals := {
  AnnotationKeyRunnerID : string;
  AnnotationKeyUnregistrationStartTimestamp : string;
  AnnotationKeyUnregistrationCompleteTimestamp : string;
  retryDelayOnGitHubAPIRateLimitError : Duration;
  runnerContainerExitCode : option Pod -> option Z;
  runnerPodOrContainerIsStopped : option Pod -> bool;
  time_Parse_RFC3339 : string -> Time + error;
  time_Format_RFC3339 : Time -> string;
  errors_Is_RateLimitError : error -> bool;
  errors_Is_RateLimitError_sound :
    forall err, errors_Is_RateLimitError err = true -> hasRateLimitError err = true
}.

(** The two parsers as steps of a run. *)
Definition ParseInt (s : string) : M (Z + error) :=
  fun _ h => let r := strconv_ParseInt s in (Ret r, EvParseInt s r :: h).

Definition time_Parse `{Externals} (s : string) : M (Time + error) :=
  fun _ h => let r := time_Parse_RFC3339 s in (Ret r, EvTimeParse s r :: h).

(** ** Annotations *)

(** [obj.GetAnnotations()] on a [*corev1.Pod]: the method is promoted from
    the embedded [ObjectMeta], so a nil pod is dereferenced. *)
Definition GetAnnotations (obj : option Pod) : Outcome (option (gmap string string)) :=
  match obj with
  | None => Panic nilPointerDereference
  | Some o => Ret (Annotations (Meta o))
  end.

Definition getAnnotation (obj : option Pod) (key : string) : Outcome (string * bool) :=
  match GetAnnotations obj with
  | Panic msg => Panic msg
  | Ret None => Ret ("", false)
  | Ret (Some m) =>
      match m !! key with
      | Some v => Ret (v, true)
      | None => Ret ("", false)
      end
  end.

Definition setAnnotation (meta : ObjectMeta) (key value : string) : ObjectMeta :=
  let m := match Annotations meta with
           | None => ∅
           | Some m => m
           end in
  {| Name := Name meta; Annotations := Some (<[key := value]> m) |}.

(** [updated := pod.DeepCopy(); setAnnotation(&updated.ObjectMeta, k, v)] *)
Definition withAnnotation (pod : Pod) (k v : string) : Pod :=
  {| Meta := setAnnotation (Meta pod) k v; Status := Status pod |}.

(** [pod.Annotations[key]] on a non-nil pod: the zero value for a key that
    is absent, also in the nil map. *)
Definition annotationValue (pod : Pod) (key : string) : string :=
  match Annotations (Meta pod) with
  | None => ""
  | Some m => default "" (m !! key)
  end.

(** ** The operations of [runner_graceful_stop.go] *)

(** Returns the pod as it is if it has the annotation, the updated
    pod if the patch that adds the annotation succeeded. *)
Definition annotatePodOnce (c : K8sClient) (pod : option Pod) (k v : string)
  : M (option Pod * option error) :=
  match pod with
  | None => ret (None, None)
  | Some p =>
      a <- lift (getAnnotation pod k) ;;
      if snd a then ret (pod, None)
      else
        let updated := withAnnotation p k v in
        err <- Patch c updated p ;;
        match err with
        | Some e => ret (None, Some e)
        | None => ret (Some updated, None)
        end
  end.

(** The loop of [getRunner]: the first runner of that name. *)
Fixpoint findRunner (runners : list Runner) (name : string) : option Runner :=
  match runners with
  | [] => None
  | runner :: rest =>
      if String.eqb (Runner_GetName runner) name then Some runner
      else findRunner rest name
  end.

Definition getRunner (client : GitHubClient) (enterprise org repo name : string)
  : M (option Runner * option error) :=
  r <- ListRunners client enterprise org repo ;;
  match r with
  | inr err => ret (None, Some err)
  | inl runners => ret (findRunner runners name, None)
  end.

(** [(true, nil)] when the runner was removed, [(false, nil)] when it is not
    listed or has no id yet, [(false, err)] when a call failed. *)
Definition unregisterRunner (client : GitHubClient) (enterprise org repo name : string)
    (id : option Z) : M (bool * option error) :=
  let remove (id : Z) : M (bool * option error) :=
    r <- RemoveRunner client enterprise org repo id ;;
    match r with
    | Some err => ret (false, Some err)
    | None => ret (true, None)
    end in
  match id with
  | Some id => remove id
  | None =>
      r <- getRunner client enterprise org repo name ;;
      match r with
      | (_, Some err) => ret (false, Some err)
      | (None, None) => ret (false, None)
      | (Some runner, None) =>
          match ID runner with
          | None => ret (false, None)
          | Some id => remove id
          end
      end
  end.

Section Operations.
Context `{Externals}.

(** The head of [ensureRunnerUnregistration]: the [runnerID] variable, read
    from the runner-id annotation when the pod has one; a value that is no
    decimal [int64] is the error the function returns. *)
Definition annotatedRunnerID (pod : option Pod) : M (option Z + error) :=
  a <- lift (getAnnotation pod AnnotationKeyRunnerID) ;;
  if snd a then
    v <- ParseInt (fst a) ;;
    match v with
    | inr err => ret (inr err)
    | inl v => ret (inl (Some v))
    end
  else ret (inl None).

(** If the first component of the result is [None], it is safe to delete
    the runner pod. *)
Definition ensureRunnerUnregistration (unregistrationTimeout retryDelay : Duration)
    (ghClient : GitHubClient) (enterprise organization repository runner : string)
    (pod : option Pod) : M (option Result * option error) :=
  parsed <- annotatedRunnerID pod ;;
  match parsed with
  | inr err => ret (Some emptyResult, Some err)
  | inl runnerID =>
      r <- unregisterRunner ghClient enterprise organization repository runner runnerID ;;
      match r with
      | (_, Some err) =>
          if errors_Is_RateLimitError err then
            ret (Some (requeueAfter retryDelayOnGitHubAPIRateLimitError), Some err)
          else
            match errors_As_ErrorResponse err with
            | Some status =>
                let code := runnerContainerExitCode pod in
                _ <- getRunner ghClient enterprise organization repository runner ;;
                if (status =? 422) && bool_decide (is_Some code) then ret (None, None)
                else ret (Some emptyResult, Some err)
            | None => ret (Some emptyResult, Some err)
            end
      | (true, None) => ret (None, None)
      | (false, None) =>
          match pod with
          | None => ret (None, None)
          | Some p =>
              if negb (String.eqb (annotationValue p AnnotationKeyUnregistrationCompleteTimestamp) "")
              then ret (None, None)
              else if runnerPodOrContainerIsStopped pod then ret (None, None)
              else
                let ts := annotationValue p AnnotationKeyUnregistrationStartTimestamp in
                if negb (String.eqb ts "") then
                  t <- time_Parse ts ;;
                  match t with
                  | inr err => ret (Some (requeueAfter retryDelay), Some err)
                  | inl t =>
                      r <- time_Until (time_Add t unregistrationTimeout) ;;
                      if 0 <? r then ret (Some (requeueAfter retryDelay), None)
                      else ret (None, None)
                  end
                else ret (Some (requeueAfter retryDelay), None)
          end
      end
  end.

(** The result is (pod safe to delete, retry directive, error). *)
Definition tickRunnerGracefulStop (unregistrationTimeout retryDelay : Duration)
    (ghClient : GitHubClient) (c : K8sClient)
    (enterprise organization repository runner : string) (pod : option Pod)
  : M (option Pod * option Result * option error) :=
  now <- time_Now ;;
  a <- annotatePodOnce c pod AnnotationKeyUnregistrationStartTimestamp
         (time_Format_RFC3339 now) ;;
  match a with
  | (_, Some err) => ret (None, Some emptyResult, Some err)
  | (pod, None) =>
      d <- ensureRunnerUnregistration unregistrationTimeout retryDelay ghClient
             enterprise organization repository runner pod ;;
      match d with
      | (Some res, err) => ret (None, Some res, err)
      | (None, _) =>
          now <- time_Now ;;
          a <- annotatePodOnce c pod AnnotationKeyUnregistrationCompleteTimestamp
                 (time_Format_RFC3339 now) ;;
          match a with
          | (_, Some err) => ret (None, Some emptyResult, Some err)
          | (pod, None) => ret (pod, None, None)
          end
      end
  end.

Definition ensureRunnerPodRegistered (ghClient : GitHubClient) (c : K8sClient)
    (enterprise organization repository runner : string) (pod : option Pod)
  : M (option Pod * option Result * option error) :=
  a <- lift (getAnnotation pod AnnotationKeyRunnerID) ;;
  if runnerPodOrContainerIsStopped pod || snd a then ret (pod, None, None)
  else
    r <- getRunner ghClient enterprise organization repository runner ;;
    match r with
    | (_, Some err) => ret (None, Some (requeueAfter (10 * Second)), Some err)
    | (None, None) => ret (None, Some (requeueAfter (10 * Second)), None)
    | (Some r, None) =>
        match ID r with
        | None => ret (None, Some (requeueAfter (10 * Second)), None)
        | Some id =>
            u <- annotatePodOnce c pod AnnotationKeyRunnerID (fmt_Sprintf_d id) ;;
            match u with
            | (_, Some err) => ret (None, Some (requeueAfter (10 * Second)), Some err)
            | (updated, None) => ret (updated, None, None)
            end
        end
    end.

End Operations.

(** ** The remaining functions of the file *)

(** [podRunnerID]: the runner-id annotation, the empty string when the pod
    has none. *)
Definition podRunnerID `{Externals} (pod : option Pod) : Outcome string :=
  match getAnnotation pod AnnotationKeyRunnerID with
  | Ret a => Ret (fst a)
  | Panic msg => Panic msg
  end.

(** [corev1.PodCondition], with the [Type] and [Status] strings. *)
Record PodCondition := {
  condType : string;
  condStatus : string;
  LastTransitionTime : Time
}.

Definition ConditionTrue : string := "True".

(** The loop of [podConditionTransitionTime] over [pod.Status.Conditions]:
    the transition time of the first condition of that type and status. *)
Fixpoint firstTransitionTime (conditions : list PodCondition) (tpe v : string)
  : option Time :=
  match conditions with
  | [] => None
  | c :: rest =>
      if String.eqb (condType c) tpe && String.eqb (condStatus c) v
      then Some (LastTransitionTime c)
      else firstTransitionTime rest tpe v
  end.

(** [podConditionTransitionTime] and [podConditionTransitionTimeAfter] read
    nothing of the pod but [pod.Status.Conditions]: here the pod is given
    by that list, [None] being the nil pod, whose dereference panics. *)
Definition podConditionTransitionTime (pod : option (list PodCondition))
    (tpe v : string) : Outcome (option Time) :=
  match pod with
  | None => Panic nilPointerDereference
  | Some conditions => Ret (firstTransitionTime conditions tpe v)
  end.

(** [c.Add(d).Before(time.Now())] *)
Definition podConditionTransitionTimeAfter (pod : option (list PodCondition))
    (tpe : string) (d : Duration) : M bool :=
  c <- lift (podConditionTransitionTime pod tpe ConditionTrue) ;;
  match c with
  | None => ret false
  | Some t => now <- time_Now ;; ret (time_Add t d <? now)
  end.

(** ** Reading a history *)

(** The error an entry reports, if its call failed. *)
Definition eventError (ev : Event) : option error :=
  match ev with
  | EvNow _ => None
  | EvPatch _ _ r => r
  | EvListRunners _ _ _ (inr e) => Some e
  | EvListRunners _ _ _ (inl _) => None
  | EvRemoveRunner _ _ _ _ r => r
  | EvParseInt _ (inr e) => Some e
  | EvParseInt _ (inl _) => None
  | EvTimeParse _ (inr e) => Some e
  | EvTimeParse _ (inl _) => None
  end.

(** The errors of a stretch of history, oldest first. *)
Definition failures (evs : History) : list error := omap eventError (rev evs).

(** The kinds of entries.  Patches and removals change the cluster and
    the registry; listing the runners and reading the clock only read;
    the parsers are functions. *)
Inductive Kind := KNow | KPatch | KListRunners | KRemoveRunner | KParse.

Definition kindOf (ev : Event) : Kind :=
  match ev with
  | EvNow _ => KNow
  | EvPatch _ _ _ => KPatch
  | EvListRunners _ _ _ _ => KListRunners
  | EvRemoveRunner _ _ _ _ _ => KRemoveRunner
  | EvParseInt _ _ | EvTimeParse _ _ => KParse
  end.

Definition Kind_eqb (a b : Kind) : bool :=
  match a, b with
  | KNow, KNow | KPatch, KPatch | KListRunners, KListRunners
  | KRemoveRunner, KRemoveRunner | KParse, KParse => true
  | _, _ => false
  end.

Definition hasKind (k : Kind) (ev : Event) : bool := Kind_eqb (kindOf ev) k.

Definition isRemoveRunner (ev : Event) : bool := hasKind KRemoveRunner ev.

Definition isRegistryCall (ev : Event) : bool :=
  hasKind KListRunners ev || hasKind KRemoveRunner ev.

Definition countKind (k : Kind) (evs : History) : nat :=
  length (List.filter (hasKind k) evs).

(** [runs m Q]: from every clock and history, [m] only extends the history,
    and its outcome [o] and the entries [evs] it adds satisfy [Q o evs]. *)
Definition runs {A} (m : M A) (Q : Outcome A -> History -> Prop) : Prop :=
  forall clk h, exists o evs, m clk h = (o, (evs ++ h)%list) /\ Q o evs.

(** [runsFrom acc m Q]: the same for a step in the middle of a run, [acc]
    being the entries the run has added before [m]. *)
Definition runsFrom {A} (acc : History) (m : M A)
    (Q : Outcome A -> History -> Prop) : Prop :=
  runs m (fun o evs => Q o (evs ++ acc)%list).

(** The annotations of a pod as a map; the nil map reads as the empty one. *)
Definition annotationsOf (pod : Pod) : gmap string string :=
  default ∅ (Annotations (Meta pod)).

(** [keepsAnnotations p q]: every annotation of [p] is in [q] with the
    same value. *)
Definition keepsAnnotations (p q : Pod) : Prop :=
  forall k x, annotationsOf p !! k = Some x -> annotationsOf q !! k = Some x.

(** A patch recorded in the history sends an object that keeps the
    annotations of [p]. *)
Definition patchKeeps (p : Pod) (ev : Event) : Prop :=
  match ev with
  | EvPatch updated _ _ => keepsAnnotations p updated
  | _ => True
  end.

(** ** A concrete setting to run the operations in *)

Module Sample.

(** Days from 1970-01-01 to the given day of the proleptic Gregorian
    calendar, and back. *)
Definition daysFromCivil (y m d : Z) : Z :=
  let y' := if m <=? 2 then y - 1 else y in
  let era := y' / 400 in
  let yoe := y' - era * 400 in
  let doy := (153 * (if 2 <? m then m - 3 else m + 9) + 2) / 5 + d - 1 in
  let doe := yoe * 365 + yoe / 4 - yoe / 100 + doy in
  era * 146097 + doe - 719468.

Definition civilFromDays (z : Z) : Z * Z * Z :=
  let z := z + 719468 in
  let era := z / 146097 in
  let doe := z - era * 146097 in
  let yoe := (doe - doe / 1460 + doe / 36524 - doe / 146096) / 365 in
  let doy := doe - (365 * yoe + yoe / 4 - yoe / 100) in
  let mp := (5 * doy + 2) / 153 in
  let d := doy - (153 * mp + 2) / 5 + 1 in
  let m := if mp <? 10 then mp + 3 else mp - 9 in
  (if m <=? 2 then yoe + era * 400 + 1 else yoe + era * 400, m, d).

Definition num2 (a b : ascii) : option Z :=
  match digitOf a, digitOf b with
  | Some x, Some y => Some (10 * x + y)
  | _, _ => None
  end.

Definition isChar (c : ascii) (s : string) : bool := String.eqb (String c "") s.

(** A part of [time.Parse(time.RFC3339, s)]: the UTC form
    [yyyy-mm-ddThh:mm:ssZ] of a day that exists.  The forms with a zone
    offset or with fractional seconds, which Go reads too, are refused
    here; the examples do not use them. *)
Definition parseUTC (s : string) : Time + error :=
  match list_ascii_of_string s with
  | [y1; y2; y3; y4; c1; m1; m2; c2; d1; d2; c3; h1; h2; c4; i1; i2; c5; s1; s2; c6] =>
      match num2 y1 y2, num2 y3 y4, num2 m1 m2, num2 d1 d2, num2 h1 h2, num2 i1 i2, num2 s1 s2 with
      | Some yh, Some yl, Some mo, Some d, Some h, Some mi, Some sec =>
          if isChar c1 "-" && isChar c2 "-" && isChar c3 "T" && isChar c4 ":"
             && isChar c5 ":" && isChar c6 "Z"
             && (1 <=? mo) && (mo <=? 12) && (1 <=? d) && (d <=? 31)
             && (h <? 24) && (mi <? 60) && (sec <? 60)
             && (let '(y', m', d') := civilFromDays (daysFromCivil (100 * yh + yl) mo d) in
                 (y' =? 100 * yh + yl) && (m' =? mo) && (d' =? d))
          then inl ((daysFromCivil (100 * yh + yl) mo d * 86400
                     + h * 3600 + mi * 60 + sec) * Second)
          else inr (ParseError s)
      | _, _, _, _, _, _, _ => inr (ParseError s)
      end
  | _ => inr (ParseError s)
  end.

Definition digitChar (d : Z) : ascii := ascii_of_nat (Z.to_nat (48 + d mod 10)).

Definition show2 (n : Z) (rest : string) : string :=
  String (digitChar (n / 10)) (String (digitChar n) rest).

(** [t.Format(time.RFC3339)] of an instant whose location is UTC, as
    [time.Now()] gives in a process running in UTC. *)
Definition formatUTC (t : Time) : string :=
  let secs := t / Second in
  let '(y, m, d) := civilFromDays (secs / 86400) in
  let r := secs mod 86400 in
  show2 (y / 100) (show2 y ("-" ++ show2 m ("-" ++ show2 d ("T" ++
    show2 (r / 3600) (":" ++ show2 (r mod 3600 / 60) (":" ++ show2 (r mod 60) "Z")))))).

Definition containerName : string := "runner".

Fixpoint exitCodeOf (statuses : list ContainerStatus) : option Z :=
  match statuses with
  | [] => None
  | st :: rest =>
      if String.eqb (csName st) containerName then
        match csTerminated st with
        | Some code => Some code
        | None => exitCodeOf rest
        end
      else exitCodeOf rest
  end.

Definition exitCode (pod : option Pod) : option Z :=
  match pod with
  | None => None
  | Some p => exitCodeOf (ContainerStatuses (Status p))
  end.

Definition isStopped (pod : option Pod) : bool :=
  match pod with
  | None => false
  | Some p =>
      String.eqb (Phase (Status p)) "Succeeded" || String.eqb (Phase (Status p)) "Failed"
      || (String.eqb (Phase (Status p)) "Running" && bool_decide (is_Some (exitCode pod)))
  end.

#[export] Instance externals : Externals := {|
  AnnotationKeyRunnerID := "runner-id";
  AnnotationKeyUnregistrationStartTimestamp := "unregistration-start-timestamp";
  AnnotationKeyUnregistrationCompleteTimestamp := "unregistration-complete-timestamp";
  retryDelayOnGitHubAPIRateLimitError := 30 * Second;
  runnerContainerExitCode := exitCode;
  runnerPodOrContainerIsStopped := isStopped;
  time_Parse_RFC3339 := parseUTC;
  time_Format_RFC3339 := formatUTC;
  errors_Is_RateLimitError := equalsEmptyRateLimitError;
  errors_Is_RateLimitError_sound := equalsEmptyRateLimitError_sound
|}.

(** 2022-03-01T10:00:00Z *)
Definition t0 : Time := 1646128800 * Second.

Definition clockAt (t : Time) : Clock := fun _ => t.

Definition running : PodStatus :=
  {| Phase := "Running";
     ContainerStatuses := [ {| csName := "runner"; csTerminated := None |} ] |}.

Definition crashed : PodStatus :=
  {| Phase := "Running";
     ContainerStatuses := [ {| csName := "runner"; csTerminated := Some 1 |} ] |}.

Definition mkPod (anns : list (string * string)) (st : PodStatus) : Pod :=
  {| Meta := {| Name := "example-runner-0"; Annotations := Some (list_to_map anns) |};
     Status := st |}.

Definition podFresh : Pod :=
  {| Meta := {| Name := "example-runner-0"; Annotations := None |}; Status := running |}.

Definition podStarted : Pod :=
  mkPod [("unregistration-start-timestamp", "2022-03-01T10:00:00Z")] running.

Definition podCompleted : Pod :=
  mkPod [("unregistration-start-timestamp", "2022-03-01T10:00:00Z");
         ("unregistration-complete-timestamp", "2022-03-01T10:00:30Z")] running.

Definition podRegistered (st : PodStatus) : Pod :=
  mkPod [("runner-id", "47");
         ("unregistration-start-timestamp", "2022-03-01T10:00:00Z")] st.

Definition podBadID : Pod :=
  mkPod [("runner-id", "forty-seven")] running.

Definition podBadTimestamp : Pod :=
  mkPod [("unregistration-start-timestamp", "yesterday")] running.

(** A registry that knows no runner. *)
Definition ghEmpty : GitHubClient :=
  {| gh_ListRunners := fun _ _ _ _ => inl [];
     gh_RemoveRunner := fun _ _ _ _ _ => None |}.

(** A registry that lists runner 47 and refuses to remove it with [e];
    listing fails with [e'] once a removal has been tried. *)
Definition ghRefuses (e e' : error) : GitHubClient :=
  {| gh_ListRunners := fun h _ _ _ =>
       if existsb isRemoveRunner h then inr e'
       else inl [ {| ID := Some 47; RunnerName := Some "example-runner-0" |} ];
     gh_RemoveRunner := fun _ _ _ _ _ => Some e |}.

Definition k8sOk : K8sClient := {| k8s_Patch := fun _ _ _ => None |}.

Definition rateLimited : error :=
  wrapError "failed to remove runner" (RateLimitError "API rate limit exceeded").

Definition stillRunning : error :=
  wrapError "failed to remove runner"
    (ErrorResponse 422 "Bad request - Runner is still running a job").

Definition listFailed : error := errorString "failed to list runners".

Definition connectionReset : error :=
  wrapError "failed to remove runner" (errorString "connection reset by peer").

(** A registry that lists runner 47 and removes it. *)
Definition ghRemoves : GitHubClient :=
  {| gh_ListRunners := fun _ _ _ _ =>
       inl [ {| ID := Some 47; RunnerName := Some "example-runner-0" |} ];
     gh_RemoveRunner := fun _ _ _ _ _ => None |}.

End Sample.

(** More of the setting: a cluster that refuses every patch, a pod whose
    runner container has completed, and the conditions of a pod that
    became ready at 10:00:00. *)
Module Fixtures.

Definition conflict : error :=
  errorString "the object has been modified; please apply your changes to the latest version".

Definition k8sConflict : K8sClient := {| k8s_Patch := fun _ _ _ => Some conflict |}.

Definition succeeded : PodStatus :=
  {| Phase := "Succeeded";
     ContainerStatuses := [ {| csName := "runner"; csTerminated := Some 0 |} ] |}.

Definition podSucceeded : Pod :=
  {| Meta := {| Name := "example-runner-0"; Annotations := None |};
     Status := succeeded |}.

(** A running pod whose complete-timestamp annotation is there with the
    empty string for value. *)
Definition podEmptyMark : Pod :=
  Sample.mkPod [("unregistration-complete-timestamp", "")] Sample.running.

Definition conditions : list PodCondition :=
  [ {| condType := "PodScheduled"; condStatus := "True";
       LastTransitionTime := Sample.t0 - 30 * Second |};
    {| condType := "Ready"; condStatus := "False";
       LastTransitionTime := Sample.t0 - 20 * Second |};
    {| condType := "Ready"; condStatus := "True";
       LastTransitionTime := Sample.t0 |};
    {| condType := "Ready"; condStatus := "True";
       LastTransitionTime := Sample.t0 + 3600 * Second |} ].

End Fixtures.

(** * Properties *)

Local Open Scope list_scope.

(** ** Running the monad *)

Lemma bind_Ret {A B} (m : M A) (k : A -> M B) clk h a h' :
  m clk h = (Ret a, h') -> (x <- m ;; k x) clk h = k a clk h'.
Proof. unfold bind. intros ->. reflexivity. Qed.

Lemma bind_Panic {A B} (m : M A) (k : A -> M B) clk h msg h' :
  m clk h = (Panic msg, h') -> (x <- m ;; k x) clk h = (Panic msg, h').
Proof. unfold bind. intros ->. reflexivity. Qed.

(** ** Rules for [runs] *)

Lemma runs_ret {A} (a : A) (Q : Outcome A -> History -> Prop) :
  Q (Ret a) [] -> runs (ret a) Q.
Proof. intros HQ clk h. exists (Ret a), []. split; [reflexivity | exact HQ]. Qed.

Lemma runs_lift {A} (o : Outcome A) (Q : Outcome A -> History -> Prop) :
  Q o [] -> runs (lift o) Q.
Proof. intros HQ clk h. exists o, []. split; [reflexivity | exact HQ]. Qed.

Lemma runs_conseq {A} (m : M A) (Q Q' : Outcome A -> History -> Prop) :
  runs m Q -> (forall o evs, Q o evs -> Q' o evs) -> runs m Q'.
Proof.
  intros Hm HQ clk h. destruct (Hm clk h) as (o & evs & E & HQo).
  exists o, evs. split; [exact E | apply HQ, HQo].
Qed.

Lemma runs_bind {A B} (m : M A) (k : A -> M B)
    (Q1 : Outcome A -> History -> Prop) (Q : Outcome B -> History -> Prop) :
  runs m Q1 ->
  (forall a e1, Q1 (Ret a) e1 -> runs (k a) (fun o e2 => Q o (e2 ++ e1))) ->
  (forall msg e1, Q1 (Panic msg) e1 -> Q (Panic msg) e1) ->
  runs (x <- m ;; k x) Q.
Proof.
  intros Hm Hk Hp clk h. destruct (Hm clk h) as ([a|msg] & e1 & E1 & H1).
  - destruct (Hk a e1 H1 clk (e1 ++ h)) as (o & e2 & E2 & H2).
    exists o, (e2 ++ e1). split; [|exact H2].
    rewrite (bind_Ret _ _ _ _ _ _ E1), E2, app_assoc. reflexivity.
  - exists (Panic msg), e1. split; [|exact (Hp msg e1 H1)].
    apply bind_Panic, E1.
Qed.

Lemma runs_time_Now :
  runs time_Now (fun o evs => exists t, o = Ret t /\ evs = [EvNow t]).
Proof. intros clk h. eexists _, [_]. split; [reflexivity|]. eauto. Qed.

Lemma runs_Patch (c : K8sClient) (updated base : Pod) :
  runs (Patch c updated base)
       (fun o evs => exists r, o = Ret r /\ evs = [EvPatch updated base r]).
Proof. intros clk h. eexists _, [_]. split; [reflexivity|]. eauto. Qed.

Lemma runs_ListRunners (client : GitHubClient) (enterprise org repo : string) :
  runs (ListRunners client enterprise org repo)
       (fun o evs => exists r, o = Ret r /\ evs = [EvListRunners enterprise org repo r]).
Proof. intros clk h. eexists _, [_]. split; [reflexivity|]. eauto. Qed.

Lemma runs_RemoveRunner (client : GitHubClient) (enterprise org repo : string) (id : Z) :
  runs (RemoveRunner client enterprise org repo id)
       (fun o evs => exists r, o = Ret r /\ evs = [EvRemoveRunner enterprise org repo id r]).
Proof. intros clk h. eexists _, [_]. split; [reflexivity|]. eauto. Qed.

Lemma runs_ParseInt (s : string) :
  runs (ParseInt s)
       (fun o evs => o = Ret (strconv_ParseInt s)
                     /\ evs = [EvParseInt s (strconv_ParseInt s)]).
Proof. intros clk h. eexists _, [_]. split; [reflexivity|]. eauto. Qed.

Lemma runs_time_Parse `{Externals} (s : string) :
  runs (time_Parse s)
       (fun o evs => o = Ret (time_Parse_RFC3339 s)
                     /\ evs = [EvTimeParse s (time_Parse_RFC3339 s)]).
Proof. intros clk h. eexists _, [_]. split; [reflexivity|]. eauto. Qed.

(** ** Symbolic execution *)

Lemma runs_from_nil {A} (m : M A) (Q : Outcome A -> History -> Prop) :
  runsFrom [] m Q -> runs m Q.
Proof.
  intros Hm. apply (runs_conseq _ _ _ Hm). intros o evs.
  rewrite app_nil_r. exact id.
Qed.

Lemma rf_ret {A} acc (a : A) (Q : Outcome A -> History -> Prop) :
  Q (Ret a) acc -> runsFrom acc (ret a) Q.
Proof. intros HQ. apply runs_ret. exact HQ. Qed.

Lemma rf_lift {A} acc (o : Outcome A) (Q : Outcome A -> History -> Prop) :
  Q o acc -> runsFrom acc (lift o) Q.
Proof. intros HQ. apply runs_lift. exact HQ. Qed.

Lemma rf_bind_runs {A B} acc (m : M A) (k : A -> M B)
    (Q1 : Outcome A -> History -> Prop) (Q : Outcome B -> History -> Prop) :
  runs m Q1 ->
  (forall a e1, Q1 (Ret a) e1 -> runsFrom (e1 ++ acc) (k a) Q) ->
  (forall msg e1, Q1 (Panic msg) e1 -> Q (Panic msg) (e1 ++ acc)) ->
  runsFrom acc (x <- m ;; k x) Q.
Proof.
  intros Hm Hk Hp. apply (runs_bind _ _ Q1); [exact Hm | | exact Hp].
  intros a e1 H1. apply (runs_conseq _ _ _ (Hk a e1 H1)).
  intros o e2. rewrite app_assoc. exact id.
Qed.

Lemma rf_bind_ret {A B} acc (a : A) (k : A -> M B) (Q : Outcome B -> History -> Prop) :
  runsFrom acc (k a) Q -> runsFrom acc (x <- ret a ;; k x) Q.
Proof. intros Hk clk h. exact (Hk clk h). Qed.

Lemma rf_bind_lift_Ret {A B} acc (a : A) (k : A -> M B)
    (Q : Outcome B -> History -> Prop) :
  runsFrom acc (k a) Q -> runsFrom acc (x <- lift (Ret a) ;; k x) Q.
Proof. intros Hk clk h. exact (Hk clk h). Qed.

Lemma rf_bind_lift_Panic {A B} acc msg (k : A -> M B)
    (Q : Outcome B -> History -> Prop) :
  Q (Panic msg) acc -> runsFrom acc (x <- lift (Panic msg) ;; k x) Q.
Proof. intros HQ clk h. exists (Panic msg), []. split; [reflexivity | exact HQ]. Qed.

Lemma rf_bind_assoc {A B C} acc (m : M A) (f : A -> M B) (g : B -> M C)
    (Q : Outcome C -> History -> Prop) :
  runsFrom acc (x <- m ;; y <- f x ;; g y) Q ->
  runsFrom acc (y <- (x <- m ;; f x) ;; g y) Q.
Proof.
  intros Hm clk h. destruct (Hm clk h) as (o & evs & E & HQ).
  exists o, evs. split; [|exact HQ].
  rewrite <- E. unfold bind. destruct (m clk h) as [[a|msg] h1]; reflexivity.
Qed.

Lemma rf_bind_time_Now {B} acc (k : Time -> M B) (Q : Outcome B -> History -> Prop) :
  (forall t, runsFrom (EvNow t :: acc) (k t) Q) ->
  runsFrom acc (x <- time_Now ;; k x) Q.
Proof.
  intros Hk. apply (rf_bind_runs _ _ _ _ _ runs_time_Now).
  - intros a e1 (t & [= ->] & ->). apply Hk.
  - intros msg e1 (t & [=] & _).
Qed.

Lemma rf_bind_Patch {B} acc c updated base (k : option error -> M B)
    (Q : Outcome B -> History -> Prop) :
  (forall r, runsFrom (EvPatch updated base r :: acc) (k r) Q) ->
  runsFrom acc (x <- Patch c updated base ;; k x) Q.
Proof.
  intros Hk. apply (rf_bind_runs _ _ _ _ _ (runs_Patch c updated base)).
  - intros a e1 (r & [= ->] & ->). apply Hk.
  - intros msg e1 (r & [=] & _).
Qed.

Lemma rf_bind_ListRunners {B} acc client enterprise org repo
    (k : list Runner + error -> M B) (Q : Outcome B -> History -> Prop) :
  (forall r, runsFrom (EvListRunners enterprise org repo r :: acc) (k r) Q) ->
  runsFrom acc (x <- ListRunners client enterprise org repo ;; k x) Q.
Proof.
  intros Hk. apply (rf_bind_runs _ _ _ _ _ (runs_ListRunners client enterprise org repo)).
  - intros a e1 (r & [= ->] & ->). apply Hk.
  - intros msg e1 (r & [=] & _).
Qed.

Lemma rf_bind_RemoveRunner {B} acc client enterprise org repo id
    (k : option error -> M B) (Q : Outcome B -> History -> Prop) :
  (forall r, runsFrom (EvRemoveRunner enterprise org repo id r :: acc) (k r) Q) ->
  runsFrom acc (x <- RemoveRunner client enterprise org repo id ;; k x) Q.
Proof.
  intros Hk.
  apply (rf_bind_runs _ _ _ _ _ (runs_RemoveRunner client enterprise org repo id)).
  - intros a e1 (r & [= ->] & ->). apply Hk.
  - intros msg e1 (r & [=] & _).
Qed.

Lemma rf_bind_ParseInt {B} acc s (k : Z + error -> M B)
    (Q : Outcome B -> History -> Prop) :
  runsFrom (EvParseInt s (strconv_ParseInt s) :: acc) (k (strconv_ParseInt s)) Q ->
  runsFrom acc (x <- ParseInt s ;; k x) Q.
Proof.
  intros Hk. apply (rf_bind_runs _ _ _ _ _ (runs_ParseInt s)).
  - intros a e1 ([= ->] & ->). apply Hk.
  - intros msg e1 ([=] & _).
Qed.

Lemma rf_bind_time_Parse `{Externals} {B} acc s (k : Time + error -> M B)
    (Q : Outcome B -> History -> Prop) :
  runsFrom (EvTimeParse s (time_Parse_RFC3339 s) :: acc) (k (time_Parse_RFC3339 s)) Q ->
  runsFrom acc (x <- time_Parse s ;; k x) Q.
Proof.
  intros Hk. apply (rf_bind_runs _ _ _ _ _ (runs_time_Parse s)).
  - intros a e1 ([= ->] & ->). apply Hk.
  - intros msg e1 ([=] & _).
Qed.

(** One step of symbolic execution of a goal [runsFrom acc m Q]. *)
Ltac case_on x :=
  lazymatch x with
  | match ?y with _ => _ end => case_on y
  | _ => destruct x eqn:?
  end.

Ltac symex_step :=
  cbv beta iota zeta delta [fst snd];
  lazymatch goal with
  | |- runsFrom _ (bind (bind _ _) _) _ => apply rf_bind_assoc
  | |- runsFrom _ (bind (ret _) _) _ => apply rf_bind_ret
  | |- runsFrom _ (bind (lift (Ret _)) _) _ => apply rf_bind_lift_Ret
  | |- runsFrom _ (bind (lift (Panic _)) _) _ => apply rf_bind_lift_Panic
  | |- runsFrom _ (bind time_Now _) _ => apply rf_bind_time_Now; intros ?
  | |- runsFrom _ (bind (Patch _ _ _) _) _ => apply rf_bind_Patch; intros ?
  | |- runsFrom _ (bind (ListRunners _ _ _ _) _) _ => apply rf_bind_ListRunners; intros ?
  | |- runsFrom _ (bind (RemoveRunner _ _ _ _ _) _) _ =>
      apply rf_bind_RemoveRunner; intros ?
  | |- runsFrom _ (bind (ParseInt _) _) _ => apply rf_bind_ParseInt
  | |- runsFrom _ (bind (time_Parse _) _) _ => apply rf_bind_time_Parse
  | |- runsFrom _ (bind (lift (match ?x with _ => _ end)) _) _ => case_on x
  | |- runsFrom _ (bind (match ?x with _ => _ end) _) _ => case_on x
  | |- runsFrom _ (match ?x with _ => _ end) _ => case_on x
  | |- runsFrom _ (ret _) _ => apply rf_ret
  | |- runsFrom _ (lift _) _ => apply rf_lift
  end.

Ltac symex := repeat symex_step.

(** ** Time and errors *)

Lemma time_Sub_pos (t u : Time) : 0 < time_Sub t u <-> u < t.
Proof.
  unfold time_Sub, minDuration, maxDuration.
  destruct (Z.ltb_spec (t - u) (- 2 ^ 63)); [lia|].
  destruct (Z.ltb_spec (2 ^ 63 - 1) (t - u)); lia.
Qed.

Lemma errors_As_no_rate_limit (e : error) (status : Z) :
  errors_As_ErrorResponse e = Some status -> hasRateLimitError e = false.
Proof. induction e; simpl; intros E; try discriminate; auto. Qed.

Lemma errors_As_not_rate_limit `{Externals} (e : error) (status : Z) :
  errors_As_ErrorResponse e = Some status -> errors_Is_RateLimitError e = false.
Proof.
  intros Has. destruct (errors_Is_RateLimitError e) eqn:E; [|reflexivity].
  apply errors_Is_RateLimitError_sound in E.
  rewrite (errors_As_no_rate_limit _ _ Has) in E. discriminate E.
Qed.

(** The branch that drops a 422 error: what the two tests of the code
    say about the error and the exit code. *)
Ltac dropped_422 :=
  match goal with
  | Hb : (_ =? 422) && bool_decide _ = true |- _ =>
      apply andb_prop in Hb as [Hz Hc];
      apply Z.eqb_eq in Hz; apply bool_decide_eq_true_1 in Hc; subst;
      repeat split; assumption
  end.

(** ** Annotations are kept *)

Lemma annotationsOf_withAnnotation (p : Pod) (k v : string) :
  annotationsOf (withAnnotation p k v) = <[k := v]> (annotationsOf p).
Proof.
  unfold annotationsOf, withAnnotation, setAnnotation. simpl.
  destruct (Annotations (Meta p)); reflexivity.
Qed.

Lemma keepsAnnotations_refl (p : Pod) : keepsAnnotations p p.
Proof. intros k x Hk. exact Hk. Qed.

Lemma keepsAnnotations_step (p q : Pod) (k v : string) :
  keepsAnnotations p q -> annotationsOf q !! k = None ->
  keepsAnnotations p (withAnnotation q k v).
Proof.
  intros Hpq Hk k' x Hx. rewrite annotationsOf_withAnnotation.
  apply Hpq in Hx. rewrite lookup_insert_ne; [exact Hx|].
  intros ->. rewrite Hk in Hx. discriminate Hx.
Qed.

Lemma getAnnotation_Some (p : Pod) (k : string) :
  getAnnotation (Some p) k
  = Ret (match annotationsOf p !! k with
         | Some x => (x, true)
         | None => ("", false)
         end).
Proof.
  unfold getAnnotation, GetAnnotations, annotationsOf.
  destruct (Annotations (Meta p)) as [m|]; simpl; [|reflexivity].
  destruct (m !! k); reflexivity.
Qed.

Lemma annotatePodOnce_present (c : K8sClient) (p : Pod) (k v x : string) clk h :
  annotationsOf p !! k = Some x ->
  annotatePodOnce c (Some p) k v clk h = (Ret (Some p, None), h).
Proof.
  intros Hk. unfold annotatePodOnce, bind, lift, ret.
  rewrite getAnnotation_Some, Hk. reflexivity.
Qed.

Lemma annotatePodOnce_absent (c : K8sClient) (p : Pod) (k v : string) clk h :
  annotationsOf p !! k = None ->
  annotatePodOnce c (Some p) k v clk h
  = (Ret (match k8s_Patch c h (withAnnotation p k v) p with
          | Some e => (None, Some e)
          | None => (Some (withAnnotation p k v), None)
          end),
     EvPatch (withAnnotation p k v) p (k8s_Patch c h (withAnnotation p k v) p) :: h).
Proof.
  intros Hk. unfold annotatePodOnce, bind, lift, ret, Patch.
  rewrite getAnnotation_Some, Hk. simpl.
  destruct (k8s_Patch c h (withAnnotation p k v) p); reflexivity.
Qed.

(** What a call of [annotatePodOnce] does: nothing when the pod is nil or
    has the key, one patch that adds the key otherwise. *)
Lemma annotatePodOnce_runs (c : K8sClient) (pod : option Pod) (k v : string) :
  runs (annotatePodOnce c pod k v)
    (fun o evs =>
       (evs = [] /\ o = Ret (pod, None)
        /\ forall p, pod = Some p -> is_Some (annotationsOf p !! k))
       \/
       (exists p r,
           pod = Some p /\ annotationsOf p !! k = None
           /\ evs = [EvPatch (withAnnotation p k v) p r]
           /\ o = Ret (match r with
                       | Some e => (None, Some e)
                       | None => (Some (withAnnotation p k v), None)
                       end))).
Proof.
  intros clk h. destruct pod as [p|].
  - destruct (annotationsOf p !! k) as [x|] eqn:Hk.
    + exists (Ret (Some p, None)), []. split.
      * apply (annotatePodOnce_present _ _ _ _ x), Hk.
      * left. split; [reflexivity|]. split; [reflexivity|].
        intros p' [= <-]. rewrite Hk. eauto.
    + eexists _, [_]. split.
      * apply annotatePodOnce_absent, Hk.
      * right. eexists _, _. repeat split. exact Hk.
  - exists (Ret (None, None)), []. split; [reflexivity|].
    left. repeat split. intros p [=].
Qed.

(** Symbolic execution that takes [annotatePodOnce] in one step. *)
Ltac symex_annotate :=
  lazymatch goal with
  | |- runsFrom _ (bind (annotatePodOnce _ _ _ _) _) _ =>
      eapply rf_bind_runs;
      [ apply annotatePodOnce_runs
      | intros ? ? [(-> & [= ->] & ?) | (? & ? & [= <-] & ? & -> & [= ->])]
      | intros ? ? [(_ & [=] & _) | (? & ? & _ & _ & _ & [=])] ];
      cbn [app]
  end.

Ltac symex_pods := repeat first [symex_annotate | symex_step].

Section Properties.
Context `{Externals}.

(** The two steps every decision starts with: read the runner id, call
    [unregisterRunner]. *)
Lemma ensureRunnerUnregistration_after_call
    (unregistrationTimeout retryDelay : Duration) (ghClient : GitHubClient)
    (enterprise organization repository runner : string)
    (pod : option Pod) (clk : Clock) (h h1 h2 : History)
    (rid : option Z) (r : bool * option error) :
  annotatedRunnerID pod clk h = (Ret (inl rid), h1) ->
  unregisterRunner ghClient enterprise organization repository runner rid clk h1
    = (Ret r, h2) ->
  ensureRunnerUnregistration unregistrationTimeout retryDelay ghClient
    enterprise organization repository runner pod clk h
  = match snd r with
    | Some err =>
        if errors_Is_RateLimitError err then
          (Ret (Some (requeueAfter retryDelayOnGitHubAPIRateLimitError), Some err), h2)
        else
          match errors_As_ErrorResponse err with
          | Some status =>
              (Ret (if (status =? 422) && bool_decide (is_Some (runnerContainerExitCode pod))
                    then (None, None) else (Some emptyResult, Some err)),
               snd (getRunner ghClient enterprise organization repository runner clk h2))
          | None => (Ret (Some emptyResult, Some err), h2)
          end
    | None =>
        if fst r then (Ret (None, None), h2) else
        match pod with
        | None => (Ret (None, None), h2)
        | Some p =>
            if negb (String.eqb (annotationValue p AnnotationKeyUnregistrationCompleteTimestamp) "")
            then (Ret (None, None), h2)
            else if runnerPodOrContainerIsStopped pod then (Ret (None, None), h2)
            else
              let ts := annotationValue p AnnotationKeyUnregistrationStartTimestamp in
              if negb (String.eqb ts "") then
                match time_Parse_RFC3339 ts with
                | inr err =>
                    (Ret (Some (requeueAfter retryDelay), Some err),
                     EvTimeParse ts (inr err) :: h2)
                | inl t =>
                    let h3 := EvTimeParse ts (inl t) :: h2 in
                    (Ret (if 0 <? time_Sub (time_Add t unregistrationTimeout) (clk h3)
                          then (Some (requeueAfter retryDelay), None) else (None, None)),
                     EvNow (clk h3) :: h3)
                end
              else (Ret (Some (requeueAfter retryDelay), None), h2)
        end
    end.
Proof.
  intros Hid Hcall. unfold ensureRunnerUnregistration.
  rewrite (bind_Ret _ _ _ _ _ _ Hid). cbv beta iota.
  rewrite (bind_Ret _ _ _ _ _ _ Hcall).
  destruct r as [ok [err|]]; cbv [fst snd].
  - destruct ok;
      (destruct (errors_Is_RateLimitError err); [reflexivity|];
       destruct (errors_As_ErrorResponse err) as [status|]; [|reflexivity];
       cbv [bind getRunner ListRunners ret snd];
       destruct (gh_ListRunners ghClient h2 enterprise organization repository);
       destruct (_ && _); reflexivity).
  - destruct ok; [reflexivity|].
    destruct pod as [p|]; [|reflexivity].
    destruct (negb _); [reflexivity|].
    destruct (runnerPodOrContainerIsStopped _); [reflexivity|].
    cbv zeta. destruct (negb _); [|reflexivity].
    unfold bind, time_Parse, time_Until, time_Now, ret. simpl.
    destruct (time_Parse_RFC3339 _); [|reflexivity].
    simpl. destruct (0 <? _); reflexivity.
Qed.

(** C1. A non-nil pod carries a start timestamp that parses to [t], no
    complete timestamp, and its container is not stopped; the remove call
    reports not-found.  With [now] the clock reading of the tick, the
    decision is a retry after [retryDelay] with no error while
    [now < t + unregistrationTimeout], and safe-to-delete as soon as
    [t + unregistrationTimeout <= now]. *)
Theorem C1_grace_period_convergence
    (unregistrationTimeout retryDelay : Duration) (ghClient : GitHubClient)
    (enterprise organization repository runner : string)
    (p : Pod) (clk : Clock) (h h1 h2 : History) (rid : option Z)
    (ts : string) (t : Time) :
  annotatedRunnerID (Some p) clk h = (Ret (inl rid), h1) ->
  unregisterRunner ghClient enterprise organization repository runner rid clk h1
    = (Ret (false, None), h2) ->
  annotationValue p AnnotationKeyUnregistrationCompleteTimestamp = "" ->
  runnerPodOrContainerIsStopped (Some p) = false ->
  annotationValue p AnnotationKeyUnregistrationStartTimestamp = ts ->
  ts <> "" ->
  time_Parse_RFC3339 ts = inl t ->
  let h3 := EvTimeParse ts (inl t) :: h2 in
  let now := clk h3 in
  (now < t + unregistrationTimeout ->
   ensureRunnerUnregistration unregistrationTimeout retryDelay ghClient
     enterprise organization repository runner (Some p) clk h
   = (Ret (Some (requeueAfter retryDelay), None), EvNow now :: h3))
  /\
  (t + unregistrationTimeout <= now ->
   ensureRunnerUnregistration unregistrationTimeout retryDelay ghClient
     enterprise organization repository runner (Some p) clk h
   = (Ret (None, None), EvNow now :: h3)).
Proof.
  intros Hid Hcall Hcomplete Hrunning Hstart Hts Hparse h3 now.
  rewrite (ensureRunnerUnregistration_after_call _ _ _ _ _ _ _ _ _ _ _ _ _ _ Hid Hcall).
  cbv [fst snd]. rewrite Hcomplete, Hrunning. cbv zeta. rewrite Hstart.
  apply String.eqb_neq in Hts. rewrite Hts. simpl. rewrite Hparse.
  subst now h3. unfold time_Add.
  pose proof (time_Sub_pos (t + unregistrationTimeout)
                (clk (EvTimeParse ts (inl t) :: h2))) as Hpos.
  split; intros Hnow.
  - assert (E : (0 <? time_Sub (t + unregistrationTimeout)
                        (clk (EvTimeParse ts (inl t) :: h2))) = true).
    { apply Z.ltb_lt, Hpos. exact Hnow. }
    rewrite E. reflexivity.
  - assert (E : (0 <? time_Sub (t + unregistrationTimeout)
                        (clk (EvTimeParse ts (inl t) :: h2))) = false).
    { apply Z.ltb_ge. apply Z.nlt_ge. intros L. apply Hpos in L.
      unfold Time in *. lia. }
    rewrite E. reflexivity.
Qed.

(** C2, as amended.  On a non-nil pod whose complete-timestamp annotation
    has a non-empty value the decision is safe-to-delete whenever the call
    to [unregisterRunner] returns without an error, whether the runner was
    removed or not found.  (When the call fails the error branches decide
    first; the annotation is not consulted.) *)
Theorem C2_confirmed_after_call
    (unregistrationTimeout retryDelay : Duration) (ghClient : GitHubClient)
    (enterprise organization repository runner : string)
    (p : Pod) (clk : Clock) (h h1 h2 : History) (rid : option Z) (ok : bool) :
  annotatedRunnerID (Some p) clk h = (Ret (inl rid), h1) ->
  unregisterRunner ghClient enterprise organization repository runner rid clk h1
    = (Ret (ok, None), h2) ->
  annotationValue p AnnotationKeyUnregistrationCompleteTimestamp <> "" ->
  ensureRunnerUnregistration unregistrationTimeout retryDelay ghClient
    enterprise organization repository runner (Some p) clk h
  = (Ret (None, None), h2).
Proof.
  intros Hid Hcall Hcomplete.
  rewrite (ensureRunnerUnregistration_after_call _ _ _ _ _ _ _ _ _ _ _ _ _ _ Hid Hcall).
  cbv [fst snd]. destruct ok; [reflexivity|].
  apply String.eqb_neq in Hcomplete. rewrite Hcomplete. reflexivity.
Qed.

(** C3. The call to [unregisterRunner] fails with an error that carries a
    structured API error of HTTP status 422.  If the runner container
    has an exit code the decision is safe-to-delete; if it has none the
    decision is the empty retry directive together with the error. *)
Theorem C3_conflict_inference
    (unregistrationTimeout retryDelay : Duration) (ghClient : GitHubClient)
    (enterprise organization repository runner : string)
    (p : Pod) (clk : Clock) (h h1 h2 : History) (rid : option Z)
    (ok : bool) (e : error) :
  annotatedRunnerID (Some p) clk h = (Ret (inl rid), h1) ->
  unregisterRunner ghClient enterprise organization repository runner rid clk h1
    = (Ret (ok, Some e), h2) ->
  errors_As_ErrorResponse e = Some 422 ->
  (is_Some (runnerContainerExitCode (Some p)) ->
   fst (ensureRunnerUnregistration unregistrationTimeout retryDelay ghClient
          enterprise organization repository runner (Some p) clk h)
   = Ret (None, None))
  /\
  (runnerContainerExitCode (Some p) = None ->
   fst (ensureRunnerUnregistration unregistrationTimeout retryDelay ghClient
          enterprise organization repository runner (Some p) clk h)
   = Ret (Some emptyResult, Some e)).
Proof.
  intros Hid Hcall Has.
  rewrite (ensureRunnerUnregistration_after_call _ _ _ _ _ _ _ _ _ _ _ _ _ _ Hid Hcall).
  cbv [fst snd]. rewrite (errors_As_not_rate_limit _ _ Has), Has. simpl.
  split; intros Hcode.
  - rewrite bool_decide_eq_true_2 by exact Hcode. reflexivity.
  - rewrite Hcode. rewrite bool_decide_eq_false_2; [reflexivity|].
    intros [x Hx]. discriminate Hx.
Qed.

(** C4.  The call to [unregisterRunner] fails with a rate-limit error that
    the test of line 86 rejects, as it rejects every rate-limit error
    that is not equal to the empty target.  The rate-limit branch is
    skipped, the error is no structured API error either, and the
    decision is the empty retry directive with the error: the directive
    does not carry [retryDelayOnGitHubAPIRateLimitError]. *)
Theorem C4_rate_limit_backoff_missed
    (unregistrationTimeout retryDelay : Duration) (ghClient : GitHubClient)
    (enterprise organization repository runner : string)
    (pod : option Pod) (clk : Clock) (h h1 h2 : History) (rid : option Z)
    (ok : bool) (e : error) :
  annotatedRunnerID pod clk h = (Ret (inl rid), h1) ->
  unregisterRunner ghClient enterprise organization repository runner rid clk h1
    = (Ret (ok, Some e), h2) ->
  hasRateLimitError e = true ->
  errors_Is_RateLimitError e = false ->
  ensureRunnerUnregistration unregistrationTimeout retryDelay ghClient
    enterprise organization repository runner pod clk h
  = (Ret (Some emptyResult, Some e), h2).
Proof.
  intros Hid Hcall Hrate Hrejected.
  rewrite (ensureRunnerUnregistration_after_call _ _ _ _ _ _ _ _ _ _ _ _ _ _ Hid Hcall).
  cbv [fst snd]. rewrite Hrejected.
  destruct (errors_As_ErrorResponse e) as [status|] eqn:Has; [|reflexivity].
  rewrite (errors_As_no_rate_limit _ _ Has) in Hrate. discriminate Hrate.
Qed.

(** C5, as amended.  In the grace-period branch a start timestamp that
    [time.Parse] refuses makes the decision the retry directive with delay
    [retryDelay], returned together with the parse error. *)
Theorem C5_timestamp_parse_failure
    (unregistrationTimeout retryDelay : Duration) (ghClient : GitHubClient)
    (enterprise organization repository runner : string)
    (p : Pod) (clk : Clock) (h h1 h2 : History) (rid : option Z)
    (ts : string) (e : error) :
  annotatedRunnerID (Some p) clk h = (Ret (inl rid), h1) ->
  unregisterRunner ghClient enterprise organization repository runner rid clk h1
    = (Ret (false, None), h2) ->
  annotationValue p AnnotationKeyUnregistrationCompleteTimestamp = "" ->
  runnerPodOrContainerIsStopped (Some p) = false ->
  annotationValue p AnnotationKeyUnregistrationStartTimestamp = ts ->
  ts <> "" ->
  time_Parse_RFC3339 ts = inr e ->
  ensureRunnerUnregistration unregistrationTimeout retryDelay ghClient
    enterprise organization repository runner (Some p) clk h
  = (Ret (Some (requeueAfter retryDelay), Some e), EvTimeParse ts (inr e) :: h2).
Proof.
  intros Hid Hcall Hcomplete Hrunning Hstart Hts Hparse.
  rewrite (ensureRunnerUnregistration_after_call _ _ _ _ _ _ _ _ _ _ _ _ _ _ Hid Hcall).
  cbv [fst snd]. rewrite Hcomplete, Hrunning. cbv zeta. rewrite Hstart.
  apply String.eqb_neq in Hts. rewrite Hts. simpl. rewrite Hparse.
  reflexivity.
Qed.

(** C6.  With a nil pod the first statement of
    [ensureRunnerUnregistration] reads the annotations of the pod and
    panics: no registry call is made and the branch for a nil pod is not
    reached.  [tickRunnerGracefulStop] reads the clock once and panics in
    the same place. *)
Theorem C6_nil_pod_panics
    (unregistrationTimeout retryDelay : Duration) (ghClient : GitHubClient)
    (c : K8sClient) (enterprise organization repository runner : string)
    (clk : Clock) (h : History) :
  ensureRunnerUnregistration unregistrationTimeout retryDelay ghClient
    enterprise organization repository runner None clk h
  = (Panic nilPointerDereference, h)
  /\
  tickRunnerGracefulStop unregistrationTimeout retryDelay ghClient c
    enterprise organization repository runner None clk h
  = (Panic nilPointerDereference, EvNow (clk h) :: h).
Proof. split; reflexivity. Qed.

(** C7.  If a pod has the key [k], [annotatePodOnce] with that key returns
    the pod as it is and makes no patch.  After a call that succeeded, a
    second call with the same key returns the same pod and makes no
    patch.  No operation removes or overwrites an annotation: the pod
    that [annotatePodOnce], [tickRunnerGracefulStop] and
    [ensureRunnerPodRegistered] return, and every object they send in a
    patch, keep the annotations of the pod they were given. *)
Theorem C7_annotation_write_once (c : K8sClient) (p : Pod) (k x : string) :
  annotationsOf p !! k = Some x ->
  (forall v clk h,
      annotatePodOnce c (Some p) k v clk h = (Ret (Some p, None), h))
  /\
  (forall (q q' : Pod) k' v v' clk clk' h h',
      annotatePodOnce c (Some q) k' v clk h = (Ret (Some q', None), h') ->
      annotatePodOnce c (Some q') k' v' clk' h' = (Ret (Some q', None), h'))
  /\
  (forall k' v,
      runs (annotatePodOnce c (Some p) k' v)
        (fun o evs =>
           Forall (patchKeeps p) evs
           /\ forall p' e, o = Ret (Some p', e) -> keepsAnnotations p p'))
  /\
  (forall unregistrationTimeout retryDelay ghClient
          enterprise organization repository runner,
      runs (tickRunnerGracefulStop unregistrationTimeout retryDelay ghClient c
              enterprise organization repository runner (Some p))
        (fun o evs =>
           Forall (patchKeeps p) evs
           /\ forall p' res e, o = Ret (Some p', res, e) -> keepsAnnotations p p'))
  /\
  (forall ghClient enterprise organization repository runner,
      runs (ensureRunnerPodRegistered ghClient c
              enterprise organization repository runner (Some p))
        (fun o evs =>
           Forall (patchKeeps p) evs
           /\ forall p' res e, o = Ret (Some p', res, e) -> keepsAnnotations p p')).
Proof.
  intros Hk. split; [|split; [|split; [|split]]].
  - intros v clk h. apply (annotatePodOnce_present _ _ _ _ x), Hk.
  - intros q q' k' v v' clk clk' h h' Hfirst.
    destruct (annotationsOf q !! k') as [y|] eqn:Hq.
    + rewrite (annotatePodOnce_present _ _ _ _ y) in Hfirst by exact Hq.
      injection Hfirst as <- <-. apply (annotatePodOnce_present _ _ _ _ y), Hq.
    + rewrite annotatePodOnce_absent in Hfirst by exact Hq.
      destruct (k8s_Patch c h (withAnnotation q k' v) q); [discriminate Hfirst|].
      injection Hfirst as <- <-.
      apply (annotatePodOnce_present _ _ _ _ v).
      rewrite annotationsOf_withAnnotation. apply lookup_insert_eq.
  - intros k' v. apply (runs_conseq _ _ _ (annotatePodOnce_runs c (Some p) k' v)).
    intros o evs [(-> & -> & _) | (p0 & r & [= <-] & Hno & -> & ->)].
    + split; [constructor|]. intros p' e [= <- _]. apply keepsAnnotations_refl.
    + split.
      * repeat constructor. simpl.
        apply keepsAnnotations_step; [apply keepsAnnotations_refl | exact Hno].
      * intros p' e. destruct r; intros [= <- _].
        apply keepsAnnotations_step; [apply keepsAnnotations_refl | exact Hno].
  - intros. apply runs_from_nil.
    unfold tickRunnerGracefulStop, ensureRunnerUnregistration, annotatedRunnerID,
      unregisterRunner, getRunner, time_Until, getAnnotation, GetAnnotations.
    symex_pods.
    all: (split;
          [ repeat constructor; cbn [patchKeeps];
            eauto using keepsAnnotations_refl, keepsAnnotations_step
          | intros p' res' e' [=]; subst;
            eauto using keepsAnnotations_refl, keepsAnnotations_step ]).
  - intros. apply runs_from_nil.
    unfold ensureRunnerPodRegistered, getRunner, getAnnotation, GetAnnotations.
    symex_pods.
    all: (split;
          [ repeat constructor; cbn [patchKeeps];
            eauto using keepsAnnotations_refl, keepsAnnotations_step
          | intros p' res' e' [=]; subst;
            eauto using keepsAnnotations_refl, keepsAnnotations_step ]).
Qed.

(** C8. Whatever the pod and the answers of the collaborators, one tick
    only extends the history, and what it adds holds at most two patches
    and at most one removal call.  The other entries are reads: at most
    two listings of the runners, three readings of the clock and two
    parses. *)
Theorem C8_side_effect_bound
    (unregistrationTimeout retryDelay : Duration) (ghClient : GitHubClient)
    (c : K8sClient) (enterprise organization repository runner : string)
    (pod : option Pod) (clk : Clock) (h : History) :
  exists evs,
    snd (tickRunnerGracefulStop unregistrationTimeout retryDelay ghClient c
           enterprise organization repository runner pod clk h) = evs ++ h
    /\ (countKind KPatch evs <= 2)%nat
    /\ (countKind KRemoveRunner evs <= 1)%nat
    /\ (countKind KListRunners evs <= 2)%nat
    /\ (countKind KNow evs <= 3)%nat
    /\ (countKind KParse evs <= 2)%nat.
Proof.
  remember (fun (_ : Outcome (option Pod * option Result * option error)) evs =>
              (countKind KPatch evs <= 2)%nat
              /\ (countKind KRemoveRunner evs <= 1)%nat
              /\ (countKind KListRunners evs <= 2)%nat
              /\ (countKind KNow evs <= 3)%nat
              /\ (countKind KParse evs <= 2)%nat) as Q eqn:HeqQ.
  assert (Hruns : runs (tickRunnerGracefulStop unregistrationTimeout retryDelay
                          ghClient c enterprise organization repository runner pod) Q).
  { apply runs_from_nil.
    unfold tickRunnerGracefulStop, ensureRunnerUnregistration, annotatedRunnerID,
      unregisterRunner, getRunner, annotatePodOnce, time_Until, getAnnotation,
      GetAnnotations.
    symex.
    all: subst Q; unfold countKind;
      cbn [List.filter hasKind Kind_eqb kindOf length]; repeat split; lia. }
  subst Q.
  destruct (Hruns clk h) as (o & evs & E & HQ).
  exists evs. rewrite E. split; [reflexivity | exact HQ].
Qed.

(** C9, as amended.  In the decision on a non-nil pod, the first failure
    of the run is the error that is returned, except that a structured
    API error of status 422 is dropped, with the decision safe-to-delete,
    when the runner container has an exit code; a failure after the
    first comes from a listing of the runners (the lookup made for the
    log) and is discarded.  In the tick, every failure of a patch or of a
    parse is the error that the tick returns. *)
Theorem C9_error_propagation
    (unregistrationTimeout retryDelay : Duration) (ghClient : GitHubClient)
    (c : K8sClient) (enterprise organization repository runner : string)
    (p : Pod) :
  runs (ensureRunnerUnregistration unregistrationTimeout retryDelay ghClient
          enterprise organization repository runner (Some p))
    (fun o evs =>
       exists res err,
         o = Ret (res, err)
         /\ match failures evs with
            | [] => err = None
            | e :: later =>
                (err = Some e
                 \/ (res = None /\ err = None
                     /\ errors_As_ErrorResponse e = Some 422
                     /\ is_Some (runnerContainerExitCode (Some p))))
                /\ Forall (fun e' => exists ent org repo,
                               In (EvListRunners ent org repo (inr e')) evs) later
            end)
  /\
  runs (tickRunnerGracefulStop unregistrationTimeout retryDelay ghClient c
          enterprise organization repository runner (Some p))
    (fun o evs =>
       exists safe res err,
         o = Ret (safe, res, err)
         /\ forall ev e, In ev evs -> eventError ev = Some e ->
                         isRegistryCall ev = false -> err = Some e).
Proof.
  split.
  - apply runs_from_nil.
    unfold ensureRunnerUnregistration, annotatedRunnerID,
      unregisterRunner, getRunner, time_Until, getAnnotation, GetAnnotations.
    symex.
    all: eexists _, _; (split; [reflexivity|]).
    all: cbn [failures rev app omap eventError list_omap].
    all: try reflexivity.
    all: (split;
          [ first [ left; reflexivity | right; dropped_422 ]
          | repeat constructor; eexists _, _, _; cbn [In]; eauto ]).
  - apply runs_from_nil.
    unfold tickRunnerGracefulStop, ensureRunnerUnregistration, annotatedRunnerID,
      unregisterRunner, getRunner, annotatePodOnce, time_Until, getAnnotation,
      GetAnnotations.
    symex.
    all: eexists _, _, _; (split; [reflexivity|]).
    all: intros ev err Hin Herr Hreg; cbn [In] in Hin.
    all: repeat (destruct Hin as [<- | Hin];
                 [ cbn in Herr, Hreg; try discriminate;
                   try (injection Herr as <-; reflexivity) | ]).
    all: contradiction.
Qed.

(** C10. On a pod whose runner-id annotation is present with a value that
    [strconv.ParseInt] refuses, [ensureRunnerUnregistration] returns the
    empty retry directive and the parse error; the history gains the
    failed parse only: no registry call and no patch is made. *)
Theorem C10_malformed_runner_id
    (unregistrationTimeout retryDelay : Duration) (ghClient : GitHubClient)
    (enterprise organization repository runner : string)
    (p : Pod) (clk : Clock) (h : History) (id : string) (e : error) :
  getAnnotation (Some p) AnnotationKeyRunnerID = Ret (id, true) ->
  strconv_ParseInt id = inr e ->
  ensureRunnerUnregistration unregistrationTimeout retryDelay ghClient
    enterprise organization repository runner (Some p) clk h
  = (Ret (Some emptyResult, Some e), EvParseInt id (inr e) :: h).
Proof.
  intros Hann Hparse.
  unfold ensureRunnerUnregistration, annotatedRunnerID.
  unfold bind, lift, ParseInt, ret. rewrite Hann. simpl. rewrite Hparse.
  reflexivity.
Qed.

End Properties.

(** * The properties on the sample setting *)

Ltac by_eval := vm_compute; first [reflexivity | discriminate | congruence].

(** Started at 10:00:00 with a timeout of five minutes and a registry that
    does not know the runner: one minute later the decision is to retry
    after [retryDelay], ten minutes later the pod is safe to delete. *)
Lemma C1_grace_period_convergence_witness :
  ensureRunnerUnregistration (H := Sample.externals) (300 * Second) (30 * Second)
    Sample.ghEmpty "" "org" "repo" "example-runner-0" (Some Sample.podStarted)
    (Sample.clockAt (Sample.t0 + 60 * Second)) []
  = (Ret (Some (requeueAfter (30 * Second)), None),
     [EvNow (Sample.t0 + 60 * Second);
      EvTimeParse "2022-03-01T10:00:00Z" (inl Sample.t0);
      EvListRunners "" "org" "repo" (inl [])])
  /\
  ensureRunnerUnregistration (H := Sample.externals) (300 * Second) (30 * Second)
    Sample.ghEmpty "" "org" "repo" "example-runner-0" (Some Sample.podStarted)
    (Sample.clockAt (Sample.t0 + 600 * Second)) []
  = (Ret (None, None),
     [EvNow (Sample.t0 + 600 * Second);
      EvTimeParse "2022-03-01T10:00:00Z" (inl Sample.t0);
      EvListRunners "" "org" "repo" (inl [])]).
Proof.
  split.
  - refine (proj1 (C1_grace_period_convergence (H := Sample.externals)
                     (300 * Second) (30 * Second) Sample.ghEmpty
                     "" "org" "repo" "example-runner-0" Sample.podStarted
                     (Sample.clockAt (Sample.t0 + 60 * Second))
                     [] [] [EvListRunners "" "org" "repo" (inl [])] None
                     "2022-03-01T10:00:00Z" Sample.t0 _ _ _ _ _ _ _) _); by_eval.
  - refine (proj2 (C1_grace_period_convergence (H := Sample.externals)
                     (300 * Second) (30 * Second) Sample.ghEmpty
                     "" "org" "repo" "example-runner-0" Sample.podStarted
                     (Sample.clockAt (Sample.t0 + 600 * Second))
                     [] [] [EvListRunners "" "org" "repo" (inl [])] None
                     "2022-03-01T10:00:00Z" Sample.t0 _ _ _ _ _ _ _) _); by_eval.
Defined.

(** A pod marked as unregistered and a registry that does not know the
    runner: safe to delete. *)
Lemma C2_confirmed_after_call_witness :
  ensureRunnerUnregistration (H := Sample.externals) (300 * Second) (30 * Second)
    Sample.ghEmpty "" "org" "repo" "example-runner-0" (Some Sample.podCompleted)
    (Sample.clockAt (Sample.t0 + 60 * Second)) []
  = (Ret (None, None), [EvListRunners "" "org" "repo" (inl [])]).
Proof.
  refine (C2_confirmed_after_call (H := Sample.externals)
            (300 * Second) (30 * Second) Sample.ghEmpty
            "" "org" "repo" "example-runner-0" Sample.podCompleted
            (Sample.clockAt (Sample.t0 + 60 * Second))
            [] [] [EvListRunners "" "org" "repo" (inl [])] None false _ _ _); by_eval.
Defined.

(** The same pod and a registry that refuses the removal with a transport
    error: the decision is the empty retry directive with the error, not
    safe-to-delete.  And a pod whose complete-timestamp annotation is
    there with the empty string for value, runner not found: the decision
    is a retry, not safe-to-delete. *)
Lemma C2_failed_call_counterexample :
  getAnnotation (Some Sample.podCompleted)
    (@AnnotationKeyUnregistrationCompleteTimestamp Sample.externals)
  = Ret ("2022-03-01T10:00:30Z", true)
  /\ fst (ensureRunnerUnregistration (H := Sample.externals) (300 * Second) (30 * Second)
            (Sample.ghRefuses Sample.connectionReset Sample.listFailed)
            "" "org" "repo" "example-runner-0" (Some Sample.podCompleted)
            (Sample.clockAt (Sample.t0 + 60 * Second)) [])
     = Ret (Some emptyResult, Some Sample.connectionReset)
  /\ fst (ensureRunnerUnregistration (H := Sample.externals) (300 * Second) (30 * Second)
            (Sample.ghRefuses Sample.connectionReset Sample.listFailed)
            "" "org" "repo" "example-runner-0" (Some Sample.podCompleted)
            (Sample.clockAt (Sample.t0 + 60 * Second)) [])
     <> Ret (None, None)
  /\ getAnnotation (Some Fixtures.podEmptyMark)
       (@AnnotationKeyUnregistrationCompleteTimestamp Sample.externals)
     = Ret ("", true)
  /\ fst (ensureRunnerUnregistration (H := Sample.externals) (300 * Second) (30 * Second)
            Sample.ghEmpty "" "org" "repo" "example-runner-0"
            (Some Fixtures.podEmptyMark)
            (Sample.clockAt (Sample.t0 + 60 * Second)) [])
     = Ret (Some (requeueAfter (30 * Second)), None)
  /\ fst (ensureRunnerUnregistration (H := Sample.externals) (300 * Second) (30 * Second)
            Sample.ghEmpty "" "org" "repo" "example-runner-0"
            (Some Fixtures.podEmptyMark)
            (Sample.clockAt (Sample.t0 + 60 * Second)) [])
     <> Ret (None, None).
Proof. repeat split; by_eval. Qed.

(** Runner 47 is refused with a 422 error.  With the runner container
    exited the pod is safe to delete; with the container still running
    the decision is a retry with the error. *)
Lemma C3_conflict_inference_witness :
  fst (ensureRunnerUnregistration (H := Sample.externals) (300 * Second) (30 * Second)
         (Sample.ghRefuses Sample.stillRunning Sample.listFailed)
         "" "org" "repo" "example-runner-0"
         (Some (Sample.podRegistered Sample.crashed))
         (Sample.clockAt (Sample.t0 + 60 * Second)) [])
  = Ret (None, None)
  /\
  fst (ensureRunnerUnregistration (H := Sample.externals) (300 * Second) (30 * Second)
         (Sample.ghRefuses Sample.stillRunning Sample.listFailed)
         "" "org" "repo" "example-runner-0"
         (Some (Sample.podRegistered Sample.running))
         (Sample.clockAt (Sample.t0 + 60 * Second)) [])
  = Ret (Some emptyResult, Some Sample.stillRunning).
Proof.
  split.
  - refine (proj1 (C3_conflict_inference (H := Sample.externals)
                     (300 * Second) (30 * Second)
                     (Sample.ghRefuses Sample.stillRunning Sample.listFailed)
                     "" "org" "repo" "example-runner-0"
                     (Sample.podRegistered Sample.crashed)
                     (Sample.clockAt (Sample.t0 + 60 * Second))
                     [] [EvParseInt "47" (inl 47)]
                     [EvRemoveRunner "" "org" "repo" 47 (Some Sample.stillRunning);
                      EvParseInt "47" (inl 47)]
                     (Some 47) false Sample.stillRunning _ _ _) _);
      try by_eval.
    exists 1. by_eval.
  - refine (proj2 (C3_conflict_inference (H := Sample.externals)
                     (300 * Second) (30 * Second)
                     (Sample.ghRefuses Sample.stillRunning Sample.listFailed)
                     "" "org" "repo" "example-runner-0"
                     (Sample.podRegistered Sample.running)
                     (Sample.clockAt (Sample.t0 + 60 * Second))
                     [] [EvParseInt "47" (inl 47)]
                     [EvRemoveRunner "" "org" "repo" 47 (Some Sample.stillRunning);
                      EvParseInt "47" (inl 47)]
                     (Some 47) false Sample.stillRunning _ _ _) _); by_eval.
Defined.

(** Runner 47 is refused with the rate-limit error of the API: the
    decision is the empty retry directive, where the backoff of the
    sample setting is 30 seconds. *)
Lemma C4_rate_limit_backoff_missed_witness :
  ensureRunnerUnregistration (H := Sample.externals) (300 * Second) (60 * Second)
    (Sample.ghRefuses Sample.rateLimited Sample.listFailed)
    "" "org" "repo" "example-runner-0"
    (Some (Sample.podRegistered Sample.running))
    (Sample.clockAt (Sample.t0 + 60 * Second)) []
  = (Ret (Some emptyResult, Some Sample.rateLimited),
     [EvRemoveRunner "" "org" "repo" 47 (Some Sample.rateLimited);
      EvParseInt "47" (inl 47)]).
Proof.
  refine (C4_rate_limit_backoff_missed (H := Sample.externals)
            (300 * Second) (60 * Second)
            (Sample.ghRefuses Sample.rateLimited Sample.listFailed)
            "" "org" "repo" "example-runner-0"
            (Some (Sample.podRegistered Sample.running))
            (Sample.clockAt (Sample.t0 + 60 * Second))
            [] [EvParseInt "47" (inl 47)] _ (Some 47) false Sample.rateLimited
            _ _ _ _);
    by_eval.
Defined.

(** A start timestamp that is no RFC3339 instant: the parse error comes
    with the retry directive of delay [retryDelay]. *)
Lemma C5_timestamp_parse_failure_witness :
  ensureRunnerUnregistration (H := Sample.externals) (300 * Second) (30 * Second)
    Sample.ghEmpty "" "org" "repo" "example-runner-0" (Some Sample.podBadTimestamp)
    (Sample.clockAt (Sample.t0 + 60 * Second)) []
  = (Ret (Some (requeueAfter (30 * Second)), Some (ParseError "yesterday")),
     [EvTimeParse "yesterday" (inr (ParseError "yesterday"));
      EvListRunners "" "org" "repo" (inl [])]).
Proof.
  refine (C5_timestamp_parse_failure (H := Sample.externals)
            (300 * Second) (30 * Second) Sample.ghEmpty
            "" "org" "repo" "example-runner-0" Sample.podBadTimestamp
            (Sample.clockAt (Sample.t0 + 60 * Second))
            [] [] [EvListRunners "" "org" "repo" (inl [])] None
            "yesterday" (ParseError "yesterday") _ _ _ _ _ _ _); by_eval.
Defined.

(** The directive that comes with the parse error is not the empty one. *)
Lemma C5_directive_not_empty_counterexample :
  @time_Parse_RFC3339 Sample.externals
    (annotationValue Sample.podBadTimestamp
       (@AnnotationKeyUnregistrationStartTimestamp Sample.externals))
  = inr (ParseError "yesterday")
  /\ fst (ensureRunnerUnregistration (H := Sample.externals) (300 * Second) (30 * Second)
            Sample.ghEmpty "" "org" "repo" "example-runner-0"
            (Some Sample.podBadTimestamp)
            (Sample.clockAt (Sample.t0 + 60 * Second)) [])
     = Ret (Some (requeueAfter (30 * Second)), Some (ParseError "yesterday"))
  /\ fst (ensureRunnerUnregistration (H := Sample.externals) (300 * Second) (30 * Second)
            Sample.ghEmpty "" "org" "repo" "example-runner-0"
            (Some Sample.podBadTimestamp)
            (Sample.clockAt (Sample.t0 + 60 * Second)) [])
     <> Ret (Some emptyResult, Some (ParseError "yesterday")).
Proof. repeat split; by_eval. Qed.

(** A pod that has the start timestamp: [annotatePodOnce] with that key
    returns it as it is and leaves the history alone. *)
Lemma C7_annotation_write_once_witness :
  annotatePodOnce Sample.k8sOk (Some Sample.podStarted)
    "unregistration-start-timestamp" "2022-03-01T10:05:00Z"
    (Sample.clockAt Sample.t0) []
  = (Ret (Some Sample.podStarted, None), []).
Proof.
  refine (proj1 (C7_annotation_write_once (H := Sample.externals)
                   Sample.k8sOk Sample.podStarted
                   "unregistration-start-timestamp" "2022-03-01T10:00:00Z" _)
            _ _ _).
  by_eval.
Defined.

(** The decision on a crashed runner that the registry refuses to remove
    with a 422 error, where the lookup made for the log fails too. *)
Lemma C9_error_propagation_witness :
  runs (ensureRunnerUnregistration (H := Sample.externals) (300 * Second) (30 * Second)
          (Sample.ghRefuses Sample.stillRunning Sample.listFailed)
          "" "org" "repo" "example-runner-0"
          (Some (Sample.podRegistered Sample.crashed)))
    (fun o evs =>
       exists res err,
         o = Ret (res, err)
         /\ match failures evs with
            | [] => err = None
            | e :: later =>
                (err = Some e
                 \/ (res = None /\ err = None
                     /\ errors_As_ErrorResponse e = Some 422
                     /\ is_Some (@runnerContainerExitCode Sample.externals
                                   (Some (Sample.podRegistered Sample.crashed)))))
                /\ Forall (fun e' => exists ent org repo,
                               In (EvListRunners ent org repo (inr e')) evs) later
            end).
Proof.
  exact (proj1 (C9_error_propagation (H := Sample.externals)
                  (300 * Second) (30 * Second)
                  (Sample.ghRefuses Sample.stillRunning Sample.listFailed)
                  Sample.k8sOk "" "org" "repo" "example-runner-0"
                  (Sample.podRegistered Sample.crashed))).
Defined.

(** On that input the decision is safe-to-delete with no error, while the
    run met two errors: neither is returned. *)
Lemma C9_dropped_errors_counterexample :
  fst (ensureRunnerUnregistration (H := Sample.externals) (300 * Second) (30 * Second)
         (Sample.ghRefuses Sample.stillRunning Sample.listFailed)
         "" "org" "repo" "example-runner-0"
         (Some (Sample.podRegistered Sample.crashed))
         (Sample.clockAt (Sample.t0 + 60 * Second)) [])
  = Ret (None, None)
  /\ failures
       (snd (ensureRunnerUnregistration (H := Sample.externals)
               (300 * Second) (30 * Second)
               (Sample.ghRefuses Sample.stillRunning Sample.listFailed)
               "" "org" "repo" "example-runner-0"
               (Some (Sample.podRegistered Sample.crashed))
               (Sample.clockAt (Sample.t0 + 60 * Second)) []))
     = [Sample.stillRunning; Sample.listFailed].
Proof. split; by_eval. Qed.

(** A runner id that is no number. *)
Lemma C10_malformed_runner_id_witness :
  ensureRunnerUnregistration (H := Sample.externals) (300 * Second) (30 * Second)
    Sample.ghEmpty "" "org" "repo" "example-runner-0" (Some Sample.podBadID)
    (Sample.clockAt Sample.t0) []
  = (Ret (Some emptyResult, Some (NumError "ParseInt" "forty-seven" ErrSyntax)),
     [EvParseInt "forty-seven" (inr (NumError "ParseInt" "forty-seven" ErrSyntax))]).
Proof.
  apply (C10_malformed_runner_id (H := Sample.externals)); by_eval.
Defined.

(** * The scenarios of a graceful stop, run *)

(** A pod without annotations whose runner the registry removes: the tick
    returns the pod with both timestamps, after two patches and one
    removal. *)
Example tick_removes_runner :
  tickRunnerGracefulStop (H := Sample.externals) (300 * Second) (30 * Second)
    Sample.ghRemoves Sample.k8sOk "" "org" "repo" "example-runner-0"
    (Some Sample.podFresh) (Sample.clockAt Sample.t0) []
  = (Ret (Some (withAnnotation
                  (withAnnotation Sample.podFresh
                     "unregistration-start-timestamp" "2022-03-01T10:00:00Z")
                  "unregistration-complete-timestamp" "2022-03-01T10:00:00Z"),
          None, None),
     [EvPatch
        (withAnnotation
           (withAnnotation Sample.podFresh
              "unregistration-start-timestamp" "2022-03-01T10:00:00Z")
           "unregistration-complete-timestamp" "2022-03-01T10:00:00Z")
        (withAnnotation Sample.podFresh
           "unregistration-start-timestamp" "2022-03-01T10:00:00Z")
        None;
      EvNow Sample.t0;
      EvRemoveRunner "" "org" "repo" 47 None;
      EvListRunners "" "org" "repo"
        (inl [ {| ID := Some 47; RunnerName := Some "example-runner-0" |} ]);
      EvPatch
        (withAnnotation Sample.podFresh
           "unregistration-start-timestamp" "2022-03-01T10:00:00Z")
        Sample.podFresh None;
      EvNow Sample.t0]).
Proof. vm_compute. reflexivity. Qed.

(** Started ten minutes ago with a timeout of five minutes, runner not
    found: the tick marks the pod as unregistered and returns it. *)
Example tick_after_grace_period :
  fst (tickRunnerGracefulStop (H := Sample.externals) (300 * Second) (30 * Second)
         Sample.ghEmpty Sample.k8sOk "" "org" "repo" "example-runner-0"
         (Some Sample.podStarted) (Sample.clockAt (Sample.t0 + 600 * Second)) [])
  = Ret (Some (withAnnotation Sample.podStarted
                 "unregistration-complete-timestamp" "2022-03-01T10:10:00Z"),
         None, None).
Proof. vm_compute. reflexivity. Qed.

(** Started one minute ago: the tick asks for a retry after [retryDelay]. *)
Example tick_within_grace_period :
  fst (tickRunnerGracefulStop (H := Sample.externals) (300 * Second) (30 * Second)
         Sample.ghEmpty Sample.k8sOk "" "org" "repo" "example-runner-0"
         (Some Sample.podStarted) (Sample.clockAt (Sample.t0 + 60 * Second)) [])
  = Ret (None, Some (requeueAfter (30 * Second)), None).
Proof. vm_compute. reflexivity. Qed.

(** [strconv.ParseInt] at the ends of the [int64] range. *)
Example ParseInt_bounds :
  strconv_ParseInt "-9223372036854775808" = inl (- 2 ^ 63)
  /\ strconv_ParseInt "9223372036854775807" = inl (2 ^ 63 - 1)
  /\ strconv_ParseInt "9223372036854775808"
     = inr (NumError "ParseInt" "9223372036854775808" ErrRange)
  /\ strconv_ParseInt "+47" = inl 47
  /\ strconv_ParseInt "4_7" = inr (NumError "ParseInt" "4_7" ErrSyntax)
  /\ strconv_ParseInt "" = inr (NumError "ParseInt" "" ErrSyntax).
Proof. repeat split; vm_compute; reflexivity. Qed.

(** * Further properties of the file *)

(** ** Helper lemmas *)

Lemma findRunner_Some (runners : list Runner) (name : string) (r : Runner) :
  findRunner runners name = Some r ->
  exists before after,
    runners = before ++ r :: after
    /\ Runner_GetName r = name
    /\ Forall (fun x => Runner_GetName x <> name) before.
Proof.
  induction runners as [|x rest IH]; simpl; [discriminate|].
  destruct (String.eqb_spec (Runner_GetName x) name) as [E|E].
  - intros [= <-]. exists [], rest. repeat split; [exact E | constructor].
  - intros Hrest. destruct (IH Hrest) as (before & after & -> & Hname & Hbefore).
    exists (x :: before), after. repeat split; [exact Hname|].
    constructor; assumption.
Qed.

Lemma findRunner_None (runners : list Runner) (name : string) :
  findRunner runners name = None ->
  Forall (fun x => Runner_GetName x <> name) runners.
Proof.
  induction runners as [|x rest IH]; simpl; [constructor|].
  destruct (String.eqb_spec (Runner_GetName x) name) as [E|E]; [discriminate|].
  intros Hrest. constructor; [exact E | apply IH, Hrest].
Qed.

Lemma annotationValue_lookup (p : Pod) (k : string) :
  annotationValue p k = default "" (annotationsOf p !! k).
Proof.
  unfold annotationValue, annotationsOf.
  destruct (Annotations (Meta p)); reflexivity.
Qed.

Lemma is_Some_withAnnotation (p : Pod) (k k' v : string) :
  k' = k \/ is_Some (annotationsOf p !! k') ->
  is_Some (annotationsOf (withAnnotation p k v) !! k').
Proof.
  intros Hk. rewrite annotationsOf_withAnnotation. apply lookup_insert_is_Some.
  destruct (decide (k = k')) as [E|E]; [left; exact E|].
  right. split; [exact E|]. destruct Hk as [->|Hk]; [contradiction | exact Hk].
Qed.

Lemma read_annotation_is_Some (m : gmap string string) (k : string) :
  snd (match m !! k with
       | Some x => (x, true)
       | None => ("", false)
       end) = true ->
  is_Some (m !! k).
Proof. destruct (m !! k); [eauto | discriminate]. Qed.

Lemma getAnnotation_withAnnotation (p : Pod) (k v : string) :
  getAnnotation (Some (withAnnotation p k v)) k = Ret (v, true).
Proof.
  rewrite getAnnotation_Some, annotationsOf_withAnnotation, lookup_insert_eq.
  reflexivity.
Qed.

(** The pod has the key: from what [annotatePodOnce] reports, or because
    the key was just written. *)
Ltac has_key :=
  repeat first
    [ match goal with
      | Hs : forall p0, Some ?q = Some p0 -> is_Some _
        |- is_Some (annotationsOf ?q !! _) => exact (Hs q eq_refl)
      end
    | apply is_Some_withAnnotation; first [left; reflexivity | right] ].

(** The digit loop of [ParseUint] on the digits that [fmt.Sprintf] prints. *)
Lemma of_uint_acc_le (d : Decimal.uint) (acc : positive) :
  (acc <= Pos.of_uint_acc d acc)%positive.
Proof.
  revert acc. induction d; intros acc; simpl; try reflexivity;
    (etransitivity; [|apply IHd]); lia.
Qed.

Lemma parseUintLoop_of_uint_acc (d : Decimal.uint) (acc : positive) :
  Zpos (Pos.of_uint_acc d acc) <= maxUint64 ->
  parseUintLoop (list_ascii_of_string (NilEmpty.string_of_uint d)) (Zpos acc)
  = inl (Zpos (Pos.of_uint_acc d acc)).
Proof.
  revert acc. induction d; intros acc Hmax; simpl; try reflexivity.
  all: simpl in Hmax.
  all: repeat match goal with
       | |- context [Z.of_nat (nat_of_ascii ?c) - 48] =>
           let v := eval vm_compute in (Z.of_nat (nat_of_ascii c) - 48) in
           change (Z.of_nat (nat_of_ascii c) - 48) with v
       end.
  all: match type of Hmax with
       | context [Pos.of_uint_acc ?dd ?a] =>
           pose proof (of_uint_acc_le dd a) as Hle
       end.
  all: unfold maxUint64 in *.
  all: change ((2 ^ 64 - 1) `div` 10 + 1) with 1844674407370955162.
  all: destruct (Z.leb_spec 1844674407370955162 (Z.pos acc)) as [Hbig|Hsmall];
    [ lia | ].
  all: match goal with
       | |- context [?a <? ?b] => destruct (Z.ltb_spec a b) as [Hover|Hfits]
       end; [ lia | ].
  all: match goal with
       | |- parseUintLoop _ ?n = _ =>
           match type of Hle with
           | (?a <= _)%positive => replace n with (Z.pos a) by lia
           end
       end.
  all: match goal with IH : forall a : positive, _ |- _ => apply IH; exact Hmax end.
Qed.

Lemma parseUintLoop_of_uint (d : Decimal.uint) :
  Z.of_N (Pos.of_uint d) <= maxUint64 ->
  parseUintLoop (list_ascii_of_string (NilEmpty.string_of_uint d)) 0
  = inl (Z.of_N (Pos.of_uint d)).
Proof.
  induction d; intros Hmax; try reflexivity.
  - (* a leading zero *) simpl. apply IHd. exact Hmax.
  - exact (parseUintLoop_of_uint_acc d 1 Hmax).
  - exact (parseUintLoop_of_uint_acc d 2 Hmax).
  - exact (parseUintLoop_of_uint_acc d 3 Hmax).
  - exact (parseUintLoop_of_uint_acc d 4 Hmax).
  - exact (parseUintLoop_of_uint_acc d 5 Hmax).
  - exact (parseUintLoop_of_uint_acc d 6 Hmax).
  - exact (parseUintLoop_of_uint_acc d 7 Hmax).
  - exact (parseUintLoop_of_uint_acc d 8 Hmax).
  - exact (parseUintLoop_of_uint_acc d 9 Hmax).
Qed.

Lemma parseUintLoop_to_uint (p : positive) :
  Zpos p <= maxUint64 ->
  exists c rest,
    list_ascii_of_string (NilZero.string_of_uint (Pos.to_uint p)) = c :: rest
    /\ Ascii.eqb c "-" = false /\ Ascii.eqb c "+" = false
    /\ parseUintLoop (c :: rest) 0 = inl (Zpos p).
Proof.
  intros Hmax.
  pose proof (DecimalPos.Unsigned.of_to p) as Hof.
  pose proof (DecimalPos.Unsigned.to_uint_nonnil p) as Hnil.
  assert (Hloop : parseUintLoop
                    (list_ascii_of_string (NilEmpty.string_of_uint (Pos.to_uint p))) 0
                  = inl (Zpos p)).
  { rewrite parseUintLoop_of_uint; rewrite Hof; [reflexivity | exact Hmax]. }
  destruct (Pos.to_uint p); [contradiction | ..];
    (eexists _, _; split; [reflexivity|]; split; [reflexivity|];
     split; [reflexivity | exact Hloop]).
Qed.

Lemma strconv_ParseInt_fmt_Sprintf_d (id : Z) :
  - 2 ^ 63 <= id < 2 ^ 63 ->
  strconv_ParseInt (fmt_Sprintf_d id) = inl id.
Proof.
  intros Hrange. destruct id as [|p|p].
  - reflexivity.
  - destruct (parseUintLoop_to_uint p) as (c & rest & Hs & Hminus & Hplus & Hloop).
    { unfold maxUint64. lia. }
    unfold strconv_ParseInt, fmt_Sprintf_d. simpl Z.to_int.
    cbv [NilZero.string_of_int]. rewrite Hs. cbv zeta.
    rewrite Hminus, Hplus. cbn [orb negb andb].
    unfold strconv_ParseUint. rewrite Hloop.
    destruct (Z.leb_spec (2 ^ 63) (Z.pos p)); [lia | reflexivity].
  - destruct (parseUintLoop_to_uint p) as (c & rest & Hs & Hminus & Hplus & Hloop).
    { unfold maxUint64. lia. }
    unfold strconv_ParseInt, fmt_Sprintf_d. simpl Z.to_int.
    cbv [NilZero.string_of_int]. cbn [list_ascii_of_string]. rewrite Hs. cbv zeta.
    change (Ascii.eqb "-" "-") with true. change (Ascii.eqb "-" "+") with false.
    cbn [orb negb andb].
    unfold strconv_ParseUint. rewrite Hloop.
    destruct (Z.ltb_spec (2 ^ 63) (Z.pos p)); [lia | reflexivity].
Qed.

Lemma firstTransitionTime_None (conditions : list PodCondition) (tpe v : string) :
  firstTransitionTime conditions tpe v = None <->
  Forall (fun c => condType c <> tpe \/ condStatus c <> v) conditions.
Proof.
  induction conditions as [|c rest IH]; simpl.
  - split; [constructor | reflexivity].
  - destruct (String.eqb_spec (condType c) tpe) as [Et|Et];
      destruct (String.eqb_spec (condStatus c) v) as [Es|Es]; simpl.
    + split; [discriminate|].
      intros Hall. inversion Hall as [|? ? [Hc|Hc] _]; contradiction.
    + rewrite IH. split;
        [intros Hr; constructor; auto | intros Hall; inversion Hall; assumption].
    + rewrite IH. split;
        [intros Hr; constructor; auto | intros Hall; inversion Hall; assumption].
    + rewrite IH. split;
        [intros Hr; constructor; auto | intros Hall; inversion Hall; assumption].
Qed.

(** ** Looking a runner up and unregistering it *)

(** X1. [getRunner] lists the runners once.  If the listing fails it
    returns the error; otherwise it returns the first listed runner of
    that name, and no runner when none has the name. *)
Theorem getRunner_first_match (client : GitHubClient)
    (enterprise org repo name : string) :
  runs (getRunner client enterprise org repo name)
    (fun o evs =>
       exists answer,
         evs = [EvListRunners enterprise org repo answer]
         /\ match answer with
            | inr e => o = Ret (None, Some e)
            | inl runners =>
                exists found,
                  o = Ret (found, None)
                  /\ match found with
                     | Some r =>
                         exists before after,
                           runners = before ++ r :: after
                           /\ Runner_GetName r = name
                           /\ Forall (fun x => Runner_GetName x <> name) before
                     | None => Forall (fun x => Runner_GetName x <> name) runners
                     end
            end).
Proof.
  apply runs_from_nil. unfold getRunner. symex.
  - eexists. split; [reflexivity|]. eexists. split; [reflexivity|].
    destruct (findRunner _ name) as [found|] eqn:Hfind.
    + apply findRunner_Some, Hfind.
    + apply findRunner_None, Hfind.
  - eexists. split; [reflexivity|]. reflexivity.
Qed.

(** X2. [unregisterRunner] returns [true] exactly when its last call is a
    removal that succeeded, and never [true] together with an error.  The
    error it returns is the error of the one call that failed.  It makes
    at most one listing and one removal, no patch and no clock reading;
    given an id it makes the removal of that id and nothing else. *)
Theorem unregisterRunner_outcome (client : GitHubClient)
    (enterprise org repo name : string) (id : option Z) :
  runs (unregisterRunner client enterprise org repo name id)
    (fun o evs =>
       exists ok err,
         o = Ret (ok, err)
         /\ (ok = true <->
             exists rid rest, evs = EvRemoveRunner enterprise org repo rid None :: rest)
         /\ (is_Some err -> ok = false)
         /\ failures evs = match err with Some e => [e] | None => [] end
         /\ (countKind KRemoveRunner evs <= 1)%nat
         /\ (countKind KListRunners evs <= 1)%nat
         /\ countKind KPatch evs = 0%nat
         /\ countKind KNow evs = 0%nat
         /\ (forall i, id = Some i ->
               exists answer, evs = [EvRemoveRunner enterprise org repo i answer])).
Proof.
  apply runs_from_nil. unfold unregisterRunner, getRunner. symex.
  all: eexists _, _; (split; [reflexivity|]).
  all: (split; [split; [try discriminate; intros _; eexists _, _; reflexivity
                       | try reflexivity; intros (? & ? & [=])] | ]).
  all: (split; [intros [? [=]] || reflexivity | ]).
  all: repeat split; try reflexivity; try (cbn; lia).
  all: intros i [=]; subst; eexists; reflexivity.
Qed.

(** X3. [unregisterRunner] returns [(false, nil)] exactly when it was given
    no id, the listing succeeded, and the first listed runner of that
    name, if there is one, has no id.  No removal is then attempted: the
    listing is the only call. *)
Theorem unregisterRunner_not_found (client : GitHubClient)
    (enterprise org repo name : string) (id : option Z) :
  runs (unregisterRunner client enterprise org repo name id)
    (fun o evs =>
       o = Ret (false, None) <->
       (id = None
        /\ exists runners,
             evs = [EvListRunners enterprise org repo (inl runners)]
             /\ match findRunner runners name with
                | Some r => ID r = None
                | None => True
                end)).
Proof.
  apply runs_from_nil. unfold unregisterRunner, getRunner. symex.
  all: (split;
        [ intros Heq; try discriminate Heq
        | intros (Hid & rs & Hevs & Hfound);
          first [reflexivity | discriminate Hid | discriminate Hevs] ]).
  all: (split; [reflexivity|]; eexists; split; [reflexivity|]).
  all: match goal with Hf : findRunner _ _ = _ |- _ => rewrite Hf end;
    first [assumption | exact I].
Qed.

(** ** Annotations and runner ids *)

(** X4. Reading a key back after [setAnnotation] gives the value written,
    also when the pod had no annotation map; the other keys read as
    before, and the status and the name of the pod are untouched. *)
Theorem setAnnotation_getAnnotation (p : Pod) (k v : string) :
  getAnnotation (Some (withAnnotation p k v)) k = Ret (v, true)
  /\ (forall k', k' <> k ->
        getAnnotation (Some (withAnnotation p k v)) k' = getAnnotation (Some p) k')
  /\ Status (withAnnotation p k v) = Status p
  /\ Name (Meta (withAnnotation p k v)) = Name (Meta p).
Proof.
  repeat split.
  - apply getAnnotation_withAnnotation.
  - intros k' Hk'. rewrite !getAnnotation_Some, annotationsOf_withAnnotation.
    rewrite lookup_insert_ne by congruence. reflexivity.
Qed.

(** X5. A runner id in the [int64] range, printed with [%d] as
    [ensureRunnerPodRegistered] does, is read back as the same id by the
    [strconv.ParseInt] of [ensureRunnerUnregistration]. *)
Theorem ParseInt_Sprintf_d (id : Z) :
  - 2 ^ 63 <= id < 2 ^ 63 ->
  strconv_ParseInt (fmt_Sprintf_d id) = inl id.
Proof. exact (strconv_ParseInt_fmt_Sprintf_d id). Qed.

Section MoreProperties.
Context `{Externals}.

(** ** The decision *)

(** X6. On a non-nil pod [ensureRunnerUnregistration] never returns an
    error without a retry directive.  A directive it returns never sets
    [Requeue], and its delay is zero, [retryDelay] or the rate-limit
    backoff.  The decision makes no patch, at most one removal, at most
    two listings and at most one clock reading. *)
Theorem ensureRunnerUnregistration_result_shape
    (unregistrationTimeout retryDelay : Duration) (ghClient : GitHubClient)
    (enterprise organization repository runner : string) (p : Pod) :
  runs (ensureRunnerUnregistration unregistrationTimeout retryDelay ghClient
          enterprise organization repository runner (Some p))
    (fun o evs =>
       exists res err,
         o = Ret (res, err)
         /\ (res = None -> err = None)
         /\ (forall r, res = Some r ->
               Requeue r = false
               /\ (RequeueAfter r = 0 \/ RequeueAfter r = retryDelay
                   \/ RequeueAfter r = retryDelayOnGitHubAPIRateLimitError))
         /\ countKind KPatch evs = 0%nat
         /\ (countKind KRemoveRunner evs <= 1)%nat
         /\ (countKind KListRunners evs <= 2)%nat
         /\ (countKind KNow evs <= 1)%nat).
Proof.
  apply runs_from_nil.
  unfold ensureRunnerUnregistration, annotatedRunnerID,
    unregisterRunner, getRunner, time_Until, getAnnotation, GetAnnotations.
  symex.
  all: eexists _, _; (split; [reflexivity|]).
  all: (split; [intros Hres; first [reflexivity | discriminate Hres] | ]).
  all: (split; [intros dir [= <-]; cbn; split; auto | ]).
  all: unfold countKind; cbn [List.filter hasKind Kind_eqb kindOf length];
    repeat split; lia.
Qed.

(** X7. The runner is not found and the pod has no complete timestamp.  If
    the pod or its runner container is stopped, the pod is safe to
    delete.  If it is not stopped and has no start timestamp either, the
    decision is to retry after [retryDelay], with no error and without
    reading the clock. *)
Theorem ensureRunnerUnregistration_not_found_rows
    (unregistrationTimeout retryDelay : Duration) (ghClient : GitHubClient)
    (enterprise organization repository runner : string)
    (p : Pod) (clk : Clock) (h h1 h2 : History) (rid : option Z) :
  annotatedRunnerID (Some p) clk h = (Ret (inl rid), h1) ->
  unregisterRunner ghClient enterprise organization repository runner rid clk h1
    = (Ret (false, None), h2) ->
  annotationValue p AnnotationKeyUnregistrationCompleteTimestamp = "" ->
  (runnerPodOrContainerIsStopped (Some p) = true ->
   ensureRunnerUnregistration unregistrationTimeout retryDelay ghClient
     enterprise organization repository runner (Some p) clk h
   = (Ret (None, None), h2))
  /\
  (runnerPodOrContainerIsStopped (Some p) = false ->
   annotationValue p AnnotationKeyUnregistrationStartTimestamp = "" ->
   ensureRunnerUnregistration unregistrationTimeout retryDelay ghClient
     enterprise organization repository runner (Some p) clk h
   = (Ret (Some (requeueAfter retryDelay), None), h2)).
Proof.
  intros Hid Hcall Hcomplete.
  rewrite (ensureRunnerUnregistration_after_call _ _ _ _ _ _ _ _ _ _ _ _ _ _ Hid Hcall).
  cbv [fst snd]. rewrite Hcomplete. simpl.
  split.
  - intros ->. reflexivity.
  - intros -> ->. reflexivity.
Qed.

(** X8. When the pod has a runner-id annotation that parses to [id], the
    decision removes the runner by that id without listing the runners
    first, and makes no second removal.  If the removal succeeds the pod
    is safe to delete, whatever its other annotations and its status. *)
Theorem ensureRunnerUnregistration_removes_by_id
    (unregistrationTimeout retryDelay : Duration) (ghClient : GitHubClient)
    (enterprise organization repository runner : string)
    (p : Pod) (clk : Clock) (h : History) (s : string) (id : Z) :
  getAnnotation (Some p) AnnotationKeyRunnerID = Ret (s, true) ->
  strconv_ParseInt s = inl id ->
  let h1 := EvParseInt s (inl id) :: h in
  let answer := gh_RemoveRunner ghClient h1 enterprise organization repository id in
  exists later,
    snd (ensureRunnerUnregistration unregistrationTimeout retryDelay ghClient
           enterprise organization repository runner (Some p) clk h)
    = later ++ EvRemoveRunner enterprise organization repository id answer :: h1
    /\ countKind KRemoveRunner later = 0%nat
    /\ (answer = None ->
        later = []
        /\ fst (ensureRunnerUnregistration unregistrationTimeout retryDelay ghClient
                  enterprise organization repository runner (Some p) clk h)
           = Ret (None, None)).
Proof.
  intros Hann Hparse h1 answer.
  assert (Hid : annotatedRunnerID (Some p) clk h = (Ret (inl (Some id)), h1)).
  { unfold annotatedRunnerID, bind, lift, ParseInt, ret. rewrite Hann. simpl.
    rewrite Hparse. reflexivity. }
  assert (Hcall : unregisterRunner ghClient enterprise organization repository
                    runner (Some id) clk h1
                  = (Ret (match answer with
                          | Some e => (false, Some e)
                          | None => (true, None)
                          end),
                     EvRemoveRunner enterprise organization repository id answer :: h1)).
  { unfold unregisterRunner, bind, RemoveRunner, ret. fold answer.
    destruct answer; reflexivity. }
  rewrite (ensureRunnerUnregistration_after_call _ _ _ _ _ _ _ _ _ _ _ _ _ _ Hid Hcall).
  destruct answer as [e|]; cbv [fst snd].
  - destruct (errors_Is_RateLimitError e).
    + exists []. split; [reflexivity | split; [reflexivity | intros [=]]].
    + destruct (errors_As_ErrorResponse e).
      * unfold getRunner, bind, ListRunners, ret. cbv [snd].
        destruct (gh_ListRunners _ _ _ _ _); eexists [_];
          (split; [reflexivity | split; [reflexivity | intros [=]]]).
      * exists []. split; [reflexivity | split; [reflexivity | intros [=]]].
  - exists []. split; [reflexivity | split; [reflexivity | intros _; split; reflexivity]].
Qed.

(** ** The tick *)

(** X9. On a non-nil pod the tick returns either a pod with no retry
    directive and no error, or no pod with a retry directive.  A pod it
    returns has both timestamp annotations, and the status and the name
    of the pod it was given. *)
Theorem tickRunnerGracefulStop_safe_pod_is_marked
    (unregistrationTimeout retryDelay : Duration) (ghClient : GitHubClient)
    (c : K8sClient) (enterprise organization repository runner : string)
    (p : Pod) :
  runs (tickRunnerGracefulStop unregistrationTimeout retryDelay ghClient c
          enterprise organization repository runner (Some p))
    (fun o evs =>
       exists safe res err,
         o = Ret (safe, res, err)
         /\ match safe with
            | Some p' =>
                res = None /\ err = None
                /\ is_Some (annotationsOf p' !! AnnotationKeyUnregistrationStartTimestamp)
                /\ is_Some (annotationsOf p' !! AnnotationKeyUnregistrationCompleteTimestamp)
                /\ Status p' = Status p
                /\ Name (Meta p') = Name (Meta p)
            | None => is_Some res
            end).
Proof.
  apply runs_from_nil.
  unfold tickRunnerGracefulStop, ensureRunnerUnregistration, annotatedRunnerID,
    unregisterRunner, getRunner, time_Until, getAnnotation, GetAnnotations.
  symex_pods.
  all: eexists _, _, _; (split; [reflexivity|]); cbv beta iota.
  all: try (eexists; reflexivity).
  all: (split; [reflexivity|]); (split; [reflexivity|]).
  all: (split; [has_key|]); (split; [has_key|]).
  all: split; reflexivity.
Qed.

(** X10. A pod that has the start timestamp and a non-empty complete
    timestamp, with an unregister call that returns no error: the tick
    returns that pod as it is and makes no patch; it only reads the clock
    after the registry calls. *)
Theorem tickRunnerGracefulStop_stable_once_marked
    (unregistrationTimeout retryDelay : Duration) (ghClient : GitHubClient)
    (c : K8sClient) (enterprise organization repository runner : string)
    (p : Pod) (clk : Clock) (h h1 h2 : History) (rid : option Z) (ok : bool)
    (x : string) :
  annotationsOf p !! AnnotationKeyUnregistrationStartTimestamp = Some x ->
  annotationValue p AnnotationKeyUnregistrationCompleteTimestamp <> "" ->
  annotatedRunnerID (Some p) clk (EvNow (clk h) :: h) = (Ret (inl rid), h1) ->
  unregisterRunner ghClient enterprise organization repository runner rid clk h1
    = (Ret (ok, None), h2) ->
  tickRunnerGracefulStop unregistrationTimeout retryDelay ghClient c
    enterprise organization repository runner (Some p) clk h
  = (Ret (Some p, None, None), EvNow (clk h2) :: h2).
Proof.
  intros Hstart Hcomplete Hid Hcall.
  assert (Hdecide :
            ensureRunnerUnregistration unregistrationTimeout retryDelay ghClient
              enterprise organization repository runner (Some p) clk
              (EvNow (clk h) :: h)
            = (Ret (None, None), h2)).
  { rewrite (ensureRunnerUnregistration_after_call _ _ _ _ _ _ _ _ _ _ _ _ _ _ Hid Hcall).
    cbv [fst snd]. destruct ok; [reflexivity|].
    apply String.eqb_neq in Hcomplete. rewrite Hcomplete. reflexivity. }
  assert (Hmark : exists y,
             annotationsOf p !! AnnotationKeyUnregistrationCompleteTimestamp = Some y).
  { rewrite annotationValue_lookup in Hcomplete.
    destruct (annotationsOf p !! AnnotationKeyUnregistrationCompleteTimestamp) as [y|];
      [eauto | contradiction]. }
  destruct Hmark as [y Hy].
  unfold tickRunnerGracefulStop.
  rewrite (bind_Ret _ _ clk h (clk h) (EvNow (clk h) :: h)) by reflexivity.
  rewrite (bind_Ret _ _ _ _ _ _ (annotatePodOnce_present c p _ _ x _ _ Hstart)).
  cbv beta iota.
  rewrite (bind_Ret _ _ _ _ _ _ Hdecide). cbv beta iota.
  rewrite (bind_Ret _ _ clk h2 (clk h2) (EvNow (clk h2) :: h2)) by reflexivity.
  rewrite (bind_Ret _ _ _ _ _ _ (annotatePodOnce_present c p _ _ y _ _ Hy)).
  reflexivity.
Qed.

(** X11. When the pod lacks the start timestamp and the patch that adds it
    fails, the tick stops there: it returns no pod, the empty retry
    directive and the error of the patch, and makes no registry call. *)
Theorem tickRunnerGracefulStop_start_patch_failure
    (unregistrationTimeout retryDelay : Duration) (ghClient : GitHubClient)
    (c : K8sClient) (enterprise organization repository runner : string)
    (p : Pod) (clk : Clock) (h : History) (e : error) :
  annotationsOf p !! AnnotationKeyUnregistrationStartTimestamp = None ->
  let h0 := EvNow (clk h) :: h in
  let updated :=
    withAnnotation p AnnotationKeyUnregistrationStartTimestamp
      (time_Format_RFC3339 (clk h)) in
  k8s_Patch c h0 updated p = Some e ->
  tickRunnerGracefulStop unregistrationTimeout retryDelay ghClient c
    enterprise organization repository runner (Some p) clk h
  = (Ret (None, Some emptyResult, Some e), EvPatch updated p (Some e) :: h0).
Proof.
  intros Hstart h0 updated Hpatch.
  unfold tickRunnerGracefulStop.
  rewrite (bind_Ret _ _ clk h (clk h) h0) by reflexivity.
  rewrite (bind_Ret _ _ _ _ _ _ (annotatePodOnce_absent c p _ _ clk h0 Hstart)).
  fold updated. rewrite Hpatch. reflexivity.
Qed.

(** X12. Every patch that a tick sends adds one key to its base object: the
    start or the complete timestamp, which the base lacks, with the
    formatted value of a clock reading of that tick. *)
Theorem tickRunnerGracefulStop_patches_add_a_missing_timestamp
    (unregistrationTimeout retryDelay : Duration) (ghClient : GitHubClient)
    (c : K8sClient) (enterprise organization repository runner : string)
    (p : Pod) :
  runs (tickRunnerGracefulStop unregistrationTimeout retryDelay ghClient c
          enterprise organization repository runner (Some p))
    (fun o evs =>
       forall updated base answer,
         In (EvPatch updated base answer) evs ->
         exists k t,
           (k = AnnotationKeyUnregistrationStartTimestamp
            \/ k = AnnotationKeyUnregistrationCompleteTimestamp)
           /\ In (EvNow t) evs
           /\ annotationsOf base !! k = None
           /\ updated = withAnnotation base k (time_Format_RFC3339 t)).
Proof.
  apply runs_from_nil.
  unfold tickRunnerGracefulStop, ensureRunnerUnregistration, annotatedRunnerID,
    unregisterRunner, getRunner, time_Until, getAnnotation, GetAnnotations.
  symex_pods.
  all: intros updated base answer Hin; cbn [In] in Hin.
  all: repeat (destruct Hin as [Hev | Hin];
               [ first
                   [ discriminate Hev
                   | injection Hev as <- <- <-;
                     eexists _, _;
                     refine (conj _ (conj _ (conj _ eq_refl)));
                     [ first [left; reflexivity | right; reflexivity]
                     | cbn [In]; repeat first [left; reflexivity | right]
                     | assumption ] ]
               | ]).
  all: contradiction.
Qed.

(** ** Registration *)

(** X13. When the pod or its runner container is stopped, or the pod has
    the runner-id annotation, [ensureRunnerPodRegistered] returns the pod
    as it is and makes no call. *)
Theorem ensureRunnerPodRegistered_noop
    (ghClient : GitHubClient) (c : K8sClient)
    (enterprise organization repository runner : string)
    (p : Pod) (clk : Clock) (h : History) :
  runnerPodOrContainerIsStopped (Some p) = true
  \/ is_Some (annotationsOf p !! AnnotationKeyRunnerID) ->
  ensureRunnerPodRegistered ghClient c enterprise organization repository runner
    (Some p) clk h
  = (Ret (Some p, None, None), h).
Proof.
  intros Hdone. unfold ensureRunnerPodRegistered, bind, lift, ret.
  rewrite getAnnotation_Some.
  destruct Hdone as [-> | [x ->]]; [reflexivity|].
  simpl. rewrite orb_true_r. reflexivity.
Qed.

(** X14. On a non-nil pod [ensureRunnerPodRegistered] returns either a pod
    with no retry directive and no error, or no pod with the retry
    directive of ten seconds.  A pod it returns is stopped or has the
    runner-id annotation.  It never removes a runner and never reads the
    clock; it makes at most one listing and one patch. *)
Theorem ensureRunnerPodRegistered_result_shape
    (ghClient : GitHubClient) (c : K8sClient)
    (enterprise organization repository runner : string) (p : Pod) :
  runs (ensureRunnerPodRegistered ghClient c enterprise organization repository runner
          (Some p))
    (fun o evs =>
       exists pod' res err,
         o = Ret (pod', res, err)
         /\ match pod' with
            | Some p' =>
                res = None /\ err = None
                /\ (runnerPodOrContainerIsStopped (Some p) = true
                    \/ is_Some (annotationsOf p' !! AnnotationKeyRunnerID))
            | None => res = Some (requeueAfter (10 * Second))
            end
         /\ countKind KRemoveRunner evs = 0%nat
         /\ (countKind KListRunners evs <= 1)%nat
         /\ (countKind KPatch evs <= 1)%nat
         /\ countKind KNow evs = 0%nat).
Proof.
  apply runs_from_nil.
  unfold ensureRunnerPodRegistered, getRunner. rewrite getAnnotation_Some.
  symex_pods.
  all: eexists _, _, _; (split; [reflexivity|]); cbv beta iota.
  all: (split;
        [ try reflexivity
        | unfold countKind; cbn [List.filter hasKind Kind_eqb kindOf length];
          repeat split; lia ]).
  all: (split; [reflexivity|]); (split; [reflexivity|]).
  all: try (right; has_key; fail).
  all: match goal with
       | Hb : _ || _ = true |- _ =>
           apply orb_prop in Hb as [Hb|Hb];
           [ left; exact Hb | right; apply read_annotation_is_Some, Hb ]
       end.
Qed.

(** X15. [ensureRunnerPodRegistered] drops no error: on a non-nil pod the
    error it returns is the error of the call that failed, and it
    returns no error when no call failed. *)
Theorem ensureRunnerPodRegistered_returns_the_failure
    (ghClient : GitHubClient) (c : K8sClient)
    (enterprise organization repository runner : string) (p : Pod) :
  runs (ensureRunnerPodRegistered ghClient c enterprise organization repository runner
          (Some p))
    (fun o evs =>
       exists pod' res err,
         o = Ret (pod', res, err)
         /\ failures evs = match err with Some e => [e] | None => [] end).
Proof.
  apply runs_from_nil.
  unfold ensureRunnerPodRegistered, getRunner. rewrite getAnnotation_Some.
  symex_pods.
  all: eexists _, _, _; (split; [reflexivity|]); reflexivity.
Qed.

(** X16. A running pod without runner id, whose runner the registry lists
    with an id in the [int64] range, and a patch that succeeds:
    [ensureRunnerPodRegistered] returns the pod annotated with that id in
    decimal; [podRunnerID] of that pod is that decimal, and the head of
    [ensureRunnerUnregistration] reads the same id back from it. *)
Theorem registered_id_is_read_back
    (ghClient : GitHubClient) (c : K8sClient)
    (enterprise organization repository runner : string)
    (p : Pod) (clk : Clock) (h : History)
    (runners : list Runner) (r : Runner) (id : Z) :
  runnerPodOrContainerIsStopped (Some p) = false ->
  annotationsOf p !! AnnotationKeyRunnerID = None ->
  gh_ListRunners ghClient h enterprise organization repository = inl runners ->
  findRunner runners runner = Some r ->
  ID r = Some id ->
  - 2 ^ 63 <= id < 2 ^ 63 ->
  let p' := withAnnotation p AnnotationKeyRunnerID (fmt_Sprintf_d id) in
  let h1 := EvListRunners enterprise organization repository (inl runners) :: h in
  k8s_Patch c h1 p' p = None ->
  ensureRunnerPodRegistered ghClient c enterprise organization repository runner
    (Some p) clk h
  = (Ret (Some p', None, None), EvPatch p' p None :: h1)
  /\ podRunnerID (Some p') = Ret (fmt_Sprintf_d id)
  /\ forall clk' h',
       annotatedRunnerID (Some p') clk' h'
       = (Ret (inl (Some id)), EvParseInt (fmt_Sprintf_d id) (inl id) :: h').
Proof.
  intros Hrunning Hnoid Hlist Hfind Hid Hrange p' h1 Hpatch.
  assert (Hread : getAnnotation (Some p') AnnotationKeyRunnerID
                  = Ret (fmt_Sprintf_d id, true)).
  { apply getAnnotation_withAnnotation. }
  split; [|split].
  - unfold ensureRunnerPodRegistered.
    unfold bind at 1. unfold lift. rewrite getAnnotation_Some, Hnoid.
    cbv beta iota. rewrite Hrunning. cbn [orb snd].
    assert (Hget : getRunner ghClient enterprise organization repository runner clk h
                   = (Ret (Some r, None), h1)).
    { unfold getRunner, bind, ListRunners, ret. rewrite Hlist, Hfind. reflexivity. }
    rewrite (bind_Ret _ _ _ _ _ _ Hget). cbv beta iota. rewrite Hid.
    rewrite (bind_Ret _ _ _ _ _ _ (annotatePodOnce_absent c p _ _ clk h1 Hnoid)).
    fold p'. rewrite Hpatch. reflexivity.
  - unfold podRunnerID. rewrite Hread. reflexivity.
  - intros clk' h'. unfold annotatedRunnerID, bind, lift, ParseInt, ret.
    rewrite Hread. cbn [fst snd].
    rewrite (strconv_ParseInt_fmt_Sprintf_d id Hrange). reflexivity.
Qed.

End MoreProperties.

(** ** Pod conditions *)

(** X17. [podConditionTransitionTimeAfter] looks at the first condition of
    the given type whose status is True.  Without such a condition it
    returns [false] and does not read the clock.  With one, of transition
    time [t], it returns whether [t + d] is before the clock reading;
    once it has returned [true] it returns [true] for every shorter
    duration and every later clock reading. *)
Theorem podConditionTransitionTimeAfter_elapsed
    (conditions : list PodCondition) (tpe : string) (d : Duration)
    (clk : Clock) (h : History) :
  match firstTransitionTime conditions tpe ConditionTrue with
  | None =>
      Forall (fun c => condType c <> tpe \/ condStatus c <> ConditionTrue) conditions
      /\ podConditionTransitionTimeAfter (Some conditions) tpe d clk h = (Ret false, h)
  | Some t =>
      podConditionTransitionTimeAfter (Some conditions) tpe d clk h
      = (Ret (bool_decide (t + d < clk h)), EvNow (clk h) :: h)
      /\ forall d' clk' h',
           fst (podConditionTransitionTimeAfter (Some conditions) tpe d clk h) = Ret true ->
           d' <= d -> clk h <= clk' h' ->
           fst (podConditionTransitionTimeAfter (Some conditions) tpe d' clk' h') = Ret true
  end.
Proof.
  destruct (firstTransitionTime conditions tpe ConditionTrue) as [t|] eqn:Hfirst.
  - assert (Hrun : forall d0 clk0 h0,
               podConditionTransitionTimeAfter (Some conditions) tpe d0 clk0 h0
               = (Ret (bool_decide (t + d0 < clk0 h0)), EvNow (clk0 h0) :: h0)).
    { intros d0 clk0 h0.
      unfold podConditionTransitionTimeAfter, podConditionTransitionTime, bind, lift,
        time_Now, ret, time_Add.
      rewrite Hfirst. f_equal. f_equal.
      destruct (Z.ltb_spec (t + d0) (clk0 h0)).
      - rewrite bool_decide_eq_true_2; [reflexivity | assumption].
      - rewrite bool_decide_eq_false_2; [reflexivity | unfold Time in *; lia]. }
    split; [apply Hrun|].
    intros d' clk' h'. rewrite !Hrun. cbn [fst].
    intros [= Hlt] Hd Hclk. apply bool_decide_eq_true_1 in Hlt.
    rewrite bool_decide_eq_true_2; [reflexivity | unfold Time, Duration in *; lia].
  - split; [apply firstTransitionTime_None, Hfirst|].
    unfold podConditionTransitionTimeAfter, podConditionTransitionTime, bind, lift, ret.
    rewrite Hfirst. reflexivity.
Qed.

(** * The further properties on the sample setting *)

Lemma getRunner_first_match_witness :
  exists answer,
    snd (getRunner Sample.ghRemoves "" "org" "repo" "example-runner-0"
           (Sample.clockAt Sample.t0) [])
    = [EvListRunners "" "org" "repo" answer].
Proof.
  destruct (getRunner_first_match Sample.ghRemoves "" "org" "repo" "example-runner-0"
              (Sample.clockAt Sample.t0) []) as (o & evs & E & answer & -> & _).
  exists answer. rewrite E. reflexivity.
Defined.

Lemma unregisterRunner_outcome_witness :
  exists ok err evs,
    unregisterRunner Sample.ghRemoves "" "org" "repo" "example-runner-0" None
      (Sample.clockAt Sample.t0) []
    = (Ret (ok, err), evs ++ [])
    /\ (is_Some err -> ok = false)
    /\ (countKind KRemoveRunner evs <= 1)%nat.
Proof.
  destruct (unregisterRunner_outcome Sample.ghRemoves "" "org" "repo"
              "example-runner-0" None (Sample.clockAt Sample.t0) [])
    as (o & evs & E & ok & err & -> & _ & Hnever & _ & Hone & _).
  exists ok, err, evs. split; [exact E | split; assumption].
Defined.

Lemma unregisterRunner_not_found_witness :
  fst (unregisterRunner Sample.ghEmpty "" "org" "repo" "example-runner-0" None
         (Sample.clockAt Sample.t0) [])
  = Ret (false, None).
Proof.
  destruct (unregisterRunner_not_found Sample.ghEmpty "" "org" "repo"
              "example-runner-0" None (Sample.clockAt Sample.t0) [])
    as (o & evs & E & Hiff).
  rewrite E. cbn [fst]. apply Hiff.
  rewrite app_nil_r in E. vm_compute in E. injection E as <- <-.
  split; [reflexivity|]. eexists. split; [reflexivity | exact I].
Defined.

Lemma setAnnotation_getAnnotation_witness :
  getAnnotation (Some (withAnnotation Sample.podFresh "runner-id" "47")) "runner-id"
  = Ret ("47", true)
  /\ getAnnotation (Some (withAnnotation Sample.podStarted "runner-id" "47"))
       "unregistration-start-timestamp"
     = Ret ("2022-03-01T10:00:00Z", true).
Proof.
  split.
  - apply (setAnnotation_getAnnotation Sample.podFresh "runner-id" "47").
  - rewrite (proj1 (proj2 (setAnnotation_getAnnotation Sample.podStarted
                             "runner-id" "47"))) by discriminate.
    by_eval.
Defined.

Lemma ParseInt_Sprintf_d_witness :
  strconv_ParseInt (fmt_Sprintf_d (- 2 ^ 63)) = inl (- 2 ^ 63)
  /\ strconv_ParseInt (fmt_Sprintf_d 47) = inl 47.
Proof. split; apply ParseInt_Sprintf_d; lia. Defined.

Lemma ensureRunnerUnregistration_result_shape_witness :
  exists res err,
    fst (ensureRunnerUnregistration (H := Sample.externals) (300 * Second) (30 * Second)
           (Sample.ghRefuses Sample.connectionReset Sample.listFailed)
           "" "org" "repo" "example-runner-0" (Some Sample.podStarted)
           (Sample.clockAt Sample.t0) [])
    = Ret (res, err)
    /\ (res = None -> err = None).
Proof.
  destruct (ensureRunnerUnregistration_result_shape (H := Sample.externals)
              (300 * Second) (30 * Second)
              (Sample.ghRefuses Sample.connectionReset Sample.listFailed)
              "" "org" "repo" "example-runner-0" Sample.podStarted
              (Sample.clockAt Sample.t0) [])
    as (o & evs & E & res & err & -> & Hnever & _).
  exists res, err. rewrite E. split; [reflexivity | exact Hnever].
Defined.

(** A completed pod without annotations is safe to delete; a running one
    is retried. *)
Lemma ensureRunnerUnregistration_not_found_rows_witness :
  ensureRunnerUnregistration (H := Sample.externals) (300 * Second) (30 * Second)
    Sample.ghEmpty "" "org" "repo" "example-runner-0" (Some Fixtures.podSucceeded)
    (Sample.clockAt Sample.t0) []
  = (Ret (None, None), [EvListRunners "" "org" "repo" (inl [])])
  /\
  ensureRunnerUnregistration (H := Sample.externals) (300 * Second) (30 * Second)
    Sample.ghEmpty "" "org" "repo" "example-runner-0" (Some Sample.podFresh)
    (Sample.clockAt Sample.t0) []
  = (Ret (Some (requeueAfter (30 * Second)), None),
     [EvListRunners "" "org" "repo" (inl [])]).
Proof.
  split.
  - refine (proj1 (ensureRunnerUnregistration_not_found_rows (H := Sample.externals)
                     (300 * Second) (30 * Second) Sample.ghEmpty
                     "" "org" "repo" "example-runner-0" Fixtures.podSucceeded
                     (Sample.clockAt Sample.t0)
                     [] [] [EvListRunners "" "org" "repo" (inl [])] None _ _ _) _);
      by_eval.
  - refine (proj2 (ensureRunnerUnregistration_not_found_rows (H := Sample.externals)
                     (300 * Second) (30 * Second) Sample.ghEmpty
                     "" "org" "repo" "example-runner-0" Sample.podFresh
                     (Sample.clockAt Sample.t0)
                     [] [] [EvListRunners "" "org" "repo" (inl [])] None _ _ _) _ _);
      by_eval.
Defined.

Lemma ensureRunnerUnregistration_removes_by_id_witness :
  fst (ensureRunnerUnregistration (H := Sample.externals) (300 * Second) (30 * Second)
         Sample.ghRemoves "" "org" "repo" "example-runner-0"
         (Some (Sample.podRegistered Sample.running))
         (Sample.clockAt Sample.t0) [])
  = Ret (None, None).
Proof.
  destruct (ensureRunnerUnregistration_removes_by_id (H := Sample.externals)
              (300 * Second) (30 * Second) Sample.ghRemoves
              "" "org" "repo" "example-runner-0"
              (Sample.podRegistered Sample.running)
              (Sample.clockAt Sample.t0) [] "47" 47)
    as (later & _ & _ & Hsafe); [by_eval | by_eval |].
  apply Hsafe. reflexivity.
Defined.

Lemma tickRunnerGracefulStop_safe_pod_is_marked_witness :
  exists safe res err,
    fst (tickRunnerGracefulStop (H := Sample.externals) (300 * Second) (30 * Second)
           Sample.ghRemoves Sample.k8sOk "" "org" "repo" "example-runner-0"
           (Some Sample.podFresh) (Sample.clockAt Sample.t0) [])
    = Ret (safe, res, err)
    /\ match safe with
       | Some p' =>
           is_Some (annotationsOf p' !!
                      @AnnotationKeyUnregistrationCompleteTimestamp Sample.externals)
       | None => is_Some res
       end.
Proof.
  destruct (tickRunnerGracefulStop_safe_pod_is_marked (H := Sample.externals)
              (300 * Second) (30 * Second) Sample.ghRemoves Sample.k8sOk
              "" "org" "repo" "example-runner-0" Sample.podFresh
              (Sample.clockAt Sample.t0) [])
    as (o & evs & E & safe & res & err & -> & Hshape).
  exists safe, res, err. rewrite E. split; [reflexivity|].
  destruct safe; [apply Hshape | exact Hshape].
Defined.

(** A marked pod, even with a cluster that would refuse a patch. *)
Lemma tickRunnerGracefulStop_stable_once_marked_witness :
  tickRunnerGracefulStop (H := Sample.externals) (300 * Second) (30 * Second)
    Sample.ghEmpty Fixtures.k8sConflict "" "org" "repo" "example-runner-0"
    (Some Sample.podCompleted) (Sample.clockAt Sample.t0) []
  = (Ret (Some Sample.podCompleted, None, None),
     [EvNow Sample.t0; EvListRunners "" "org" "repo" (inl []); EvNow Sample.t0]).
Proof.
  refine (tickRunnerGracefulStop_stable_once_marked (H := Sample.externals)
            (300 * Second) (30 * Second) Sample.ghEmpty Fixtures.k8sConflict
            "" "org" "repo" "example-runner-0" Sample.podCompleted
            (Sample.clockAt Sample.t0) [] [EvNow Sample.t0]
            [EvListRunners "" "org" "repo" (inl []); EvNow Sample.t0] None false
            "2022-03-01T10:00:00Z" _ _ _ _); by_eval.
Defined.

Lemma tickRunnerGracefulStop_start_patch_failure_witness :
  fst (tickRunnerGracefulStop (H := Sample.externals) (300 * Second) (30 * Second)
         Sample.ghRemoves Fixtures.k8sConflict "" "org" "repo" "example-runner-0"
         (Some Sample.podFresh) (Sample.clockAt Sample.t0) [])
  = Ret (None, Some emptyResult, Some Fixtures.conflict).
Proof.
  rewrite (tickRunnerGracefulStop_start_patch_failure (H := Sample.externals)
             (300 * Second) (30 * Second) Sample.ghRemoves Fixtures.k8sConflict
             "" "org" "repo" "example-runner-0" Sample.podFresh
             (Sample.clockAt Sample.t0) [] Fixtures.conflict);
    [reflexivity | by_eval | by_eval].
Defined.

(** The first patch of the tick that removes runner 47 from a pod without
    annotations. *)
Lemma tickRunnerGracefulStop_patches_add_a_missing_timestamp_witness :
  exists k t,
    annotationsOf Sample.podFresh !! k = None
    /\ withAnnotation Sample.podFresh
         "unregistration-start-timestamp" "2022-03-01T10:00:00Z"
       = withAnnotation Sample.podFresh k (@time_Format_RFC3339 Sample.externals t).
Proof.
  destruct (tickRunnerGracefulStop_patches_add_a_missing_timestamp
              (H := Sample.externals)
              (300 * Second) (30 * Second) Sample.ghRemoves Sample.k8sOk
              "" "org" "repo" "example-runner-0" Sample.podFresh
              (Sample.clockAt Sample.t0) [])
    as (o & evs & E & Hpatches).
  rewrite app_nil_r, tick_removes_runner in E. injection E as <- <-.
  destruct (Hpatches
              (withAnnotation Sample.podFresh
                 "unregistration-start-timestamp" "2022-03-01T10:00:00Z")
              Sample.podFresh None)
    as (k & t & _ & _ & Hnone & Hupdated).
  { cbn [In]. repeat first [left; reflexivity | right]. }
  exists k, t. split; assumption.
Defined.

Lemma ensureRunnerPodRegistered_noop_witness :
  ensureRunnerPodRegistered (H := Sample.externals) Sample.ghRemoves Fixtures.k8sConflict
    "" "org" "repo" "example-runner-0" (Some Fixtures.podSucceeded)
    (Sample.clockAt Sample.t0) []
  = (Ret (Some Fixtures.podSucceeded, None, None), []).
Proof.
  apply (ensureRunnerPodRegistered_noop (H := Sample.externals)).
  left. by_eval.
Defined.

Lemma ensureRunnerPodRegistered_result_shape_witness :
  exists pod' res err evs,
    ensureRunnerPodRegistered (H := Sample.externals) Sample.ghEmpty Sample.k8sOk
      "" "org" "repo" "example-runner-0" (Some Sample.podFresh)
      (Sample.clockAt Sample.t0) []
    = (Ret (pod', res, err), evs ++ [])
    /\ countKind KRemoveRunner evs = 0%nat.
Proof.
  destruct (ensureRunnerPodRegistered_result_shape (H := Sample.externals)
              Sample.ghEmpty Sample.k8sOk "" "org" "repo" "example-runner-0"
              Sample.podFresh (Sample.clockAt Sample.t0) [])
    as (o & evs & E & pod' & res & err & -> & _ & Hnone & _).
  exists pod', res, err, evs. split; assumption.
Defined.

Lemma ensureRunnerPodRegistered_returns_the_failure_witness :
  exists pod' res err evs,
    ensureRunnerPodRegistered (H := Sample.externals) Sample.ghRemoves
      Fixtures.k8sConflict "" "org" "repo" "example-runner-0" (Some Sample.podFresh)
      (Sample.clockAt Sample.t0) []
    = (Ret (pod', res, err), evs ++ [])
    /\ failures evs = match err with Some e => [e] | None => [] end.
Proof.
  destruct (ensureRunnerPodRegistered_returns_the_failure (H := Sample.externals)
              Sample.ghRemoves Fixtures.k8sConflict "" "org" "repo"
              "example-runner-0" Sample.podFresh (Sample.clockAt Sample.t0) [])
    as (o & evs & E & pod' & res & err & -> & Hfailure).
  exists pod', res, err, evs. split; assumption.
Defined.

(** Runner 47 is registered on a fresh pod and read back. *)
Lemma registered_id_is_read_back_witness :
  fst (ensureRunnerPodRegistered (H := Sample.externals) Sample.ghRemoves Sample.k8sOk
         "" "org" "repo" "example-runner-0" (Some Sample.podFresh)
         (Sample.clockAt Sample.t0) [])
  = Ret (Some (withAnnotation Sample.podFresh "runner-id" "47"), None, None)
  /\ fst (annotatedRunnerID (H := Sample.externals)
            (Some (withAnnotation Sample.podFresh "runner-id" "47"))
            (Sample.clockAt Sample.t0) [])
     = Ret (inl (Some 47)).
Proof.
  destruct (registered_id_is_read_back (H := Sample.externals)
              Sample.ghRemoves Sample.k8sOk "" "org" "repo" "example-runner-0"
              Sample.podFresh (Sample.clockAt Sample.t0) []
              [ {| ID := Some 47; RunnerName := Some "example-runner-0" |} ]
              {| ID := Some 47; RunnerName := Some "example-runner-0" |} 47)
    as (Hregistered & _ & Hread); try by_eval.
  - lia.
  - split.
    + rewrite Hregistered. reflexivity.
    + rewrite Hread. reflexivity.
Defined.

(** Ready since 10:00:00: one minute has elapsed at 10:01:01, and then so
    has half a minute at 10:02:00. *)
Lemma podConditionTransitionTimeAfter_elapsed_witness :
  fst (podConditionTransitionTimeAfter (Some Fixtures.conditions) "Ready" (30 * Second)
         (Sample.clockAt (Sample.t0 + 120 * Second)) [])
  = Ret true.
Proof.
  pose proof (podConditionTransitionTimeAfter_elapsed Fixtures.conditions "Ready"
                (60 * Second) (Sample.clockAt (Sample.t0 + 61 * Second)) []) as Hthm.
  assert (Hfirst : firstTransitionTime Fixtures.conditions "Ready" ConditionTrue
                   = Some Sample.t0) by by_eval.
  rewrite Hfirst in Hthm. destruct Hthm as [_ Hmono].
  apply Hmono; by_eval.
Defined.
